(** * demos/browser/server.js: the meeting session router

    A shallow embedding of the request handler that [http.createServer]
    installs in [demos/browser/server.js], and the properties of its
    routing, of its bookkeeping in [meetingTable] and of the calls it makes
    to the Chime control plane.

    The handler is an [async] function: it throws, it mutates the
    module-level [meetingTable], and it awaits three remote operations.  It
    is modelled in a state-and-exception monad [Js] over a [World] that
    holds the table, the state of the remote service, the source of UUIDs,
    the log of the remote calls made and the response object.  [handler]
    is the [try]/[catch] statement applied to a request whose URL has been
    parsed; [requestListener] is the whole listener, [url.parse] included,
    which runs before the [try] block.

    A request is run alone, from its first statement to its last: an
    [await] is the call of the remote operation on the current state of the
    service, and no other request is handled while this one is suspended.
    What is proved of [handler] is proved of a request handled with no
    other request in flight; [run] handles requests one after the other.
    The compression middleware and the console and metrics logging, which
    touch neither the table, the status and body of the response nor the
    remote service, are left out. *)

From Stdlib Require Import ZArith Ascii.
From stdpp Require Import base strings list gmap fin_maps pretty.

Set Warnings "-register-all,-clear-no-such-hyp".
Local Open Scope Z_scope.

(** ** Values that cross the handler's boundary *)

(** A member of [url.parse(request.url, true).query]: Node's [querystring]
    gives a string for a key that occurs once and an array of strings for a
    key that is repeated.  An absent key reads as [undefined], which is
    [None] of the lookup in the query map (the query object has no
    prototype). *)
Inductive QueryValue : Type :=
  | QString (s : string)
  | QArray (items : list string).

(** The JSON-serialisable values the handler builds. *)
Inductive JsValue : Type :=
  | JsStr (s : string)
  | JsObj (members : list (string * JsValue)).

(** What is thrown: [new Error(message)] (also the rejection of a remote
    call) or the engine's [TypeError]. *)
Inductive Exn : Type :=
  | Error (message : string)
  | TypeError (message : string).

Definition message (err : Exn) : string :=
  match err with
  | Error m => m
  | TypeError m => m
  end.

(** The parsed request: [request.method] and the [pathname] and [query] of
    [requestUrl]. *)
Record Request : Type := {
  method : string;
  pathname : string;
  query : gmap string QueryValue
}.

(** The resolved value of [chime.createMeeting(...).promise()], an object
    [{Meeting: {MeetingId, ...}}].  The server reads [Meeting.MeetingId]
    only; the other members travel along untouched. *)
Record MeetingT : Type := {
  MeetingId : string;
  MeetingMembers : list (string * JsValue)
}.

Record CreateMeetingResponse : Type := { Meeting : MeetingT }.

(** The resolved value of [chime.createAttendee(...).promise()]. *)
Record CreateAttendeeResponse : Type := { Attendee : JsValue }.

(** The parameter objects of the three remote operations. *)
Record CreateMeetingRequest : Type := {
  ClientRequestToken : string;
  MediaRegion : option QueryValue;
  ExternalMeetingId : string
}.

Record CreateAttendeeRequest : Type := {
  attendee_MeetingId : string;
  ExternalUserId : string
}.

Record DeleteMeetingRequest : Type := { delete_MeetingId : string }.

Inductive ApiCall : Type :=
  | CreateMeeting (params : CreateMeetingRequest)
  | CreateAttendee (params : CreateAttendeeRequest)
  | DeleteMeeting (params : DeleteMeetingRequest).

(** What [respond] puts on the wire. *)
Record HttpResponse : Type := {
  statusCode : Z;
  contentType : string;
  body : string
}.

(** ** JavaScript semantics used by the handler *)

(** [!v] for a query member: [undefined] and the empty string are falsy,
    every array is truthy. *)
Definition truthy (v : option QueryValue) : bool :=
  match v with
  | None => false
  | Some (QString s) => negb (bool_decide (s = ""))
  | Some (QArray _) => true
  end.

(** [String(v)], the conversion applied to a property key in
    [meetingTable[v]] and to a value spliced into a template literal: an
    array is its members joined by commas. *)
Definition to_string (v : option QueryValue) : string :=
  match v with
  | None => "undefined"
  | Some (QString s) => s
  | Some (QArray items) => String.concat "," items
  end.

(** [s.substring(0, n)] *)
Definition substring_to (n : nat) (s : string) : string := String.substring 0 n s.

(** [meetingTable] is the object literal [{}]: a read that finds no own
    property goes on to [Object.prototype], whose properties are these. *)
Definition Object_prototype : list string :=
  [ "constructor"; "__defineGetter__"; "__defineSetter__"; "hasOwnProperty";
    "__lookupGetter__"; "__lookupSetter__"; "isPrototypeOf";
    "propertyIsEnumerable"; "toString"; "valueOf"; "__proto__";
    "toLocaleString" ].

(** The result of reading [meetingTable[key]]. *)
Inductive TableValue : Type :=
  | Own (meeting : CreateMeetingResponse)
  | Inherited (name : string)
  | Undefined.

Definition table_get (table : gmap string CreateMeetingResponse) (key : string)
  : TableValue :=
  match table !! key with
  | Some m => Own m
  | None => if bool_decide (key ∈ Object_prototype) then Inherited key else Undefined
  end.

(** [!meetingTable[key]] is false for a stored response and for the
    functions and objects found on the prototype. *)
Definition table_truthy (v : TableValue) : bool :=
  match v with
  | Own _ | Inherited _ => true
  | Undefined => false
  end.

(** How a value read from the table serialises as an object member:
    [JSON.stringify] leaves out a member that is [undefined] or a function;
    [__proto__] reads as [Object.prototype], an object with no enumerable
    property. *)
Definition meeting_json (meeting : TableValue) : option JsValue :=
  match meeting with
  | Own m =>
      Some (JsObj [("Meeting",
                    JsObj (("MeetingId", JsStr (MeetingId (Meeting m)))
                             :: MeetingMembers (Meeting m)))])
  | Inherited name => if bool_decide (name = "__proto__") then Some (JsObj []) else None
  | Undefined => None
  end.

Definition member (name : string) (value : option JsValue) : list (string * JsValue) :=
  match value with
  | Some v => [(name, v)]
  | None => []
  end.

(** [{JoinInfo: {Meeting: meeting, Attendee: attendee}}] *)
Definition JoinInfo (meeting : TableValue) (attendee : CreateAttendeeResponse) : JsValue :=
  JsObj [("JoinInfo",
          JsObj (member "Meeting" (meeting_json meeting)
                   ++ [("Attendee", JsObj [("Attendee", Attendee attendee)])]))].

Definition error_object (err : Exn) : JsValue := JsObj [("error", JsStr (message err))].

(** The line the handler hands to [metricsLogger.info] once the response
    is out, built by the same sequence of [+=]; [elapsed] is
    [endTime - startTime] and [status] the value of [responseStatus]. *)
Definition metrics_message (elapsed : Z) (request : Request) (status : Z) : string :=
  let msg := pretty elapsed +:+ "," in
  let msg := msg +:+ (method request +:+ ",") in
  let msg := msg +:+ (pretty status +:+ ",") in
  let msg := msg +:+ ("oculus-user" +:+ ",") in
  let msg := msg +:+ ("Oculus-NA" +:+ ",") in
  let msg := msg +:+ ("oculus" +:+ pathname request +:+ ",") in
  let msg := msg +:+ ("oculus" +:+ pathname request +:+ ",") in
  let msg := msg +:+ ("oculus" +:+ pathname request +:+ "/"
                        +:+ to_string (query request !! "title") +:+ ",") in
  let msg := msg +:+ "oculus," in
  let msg := msg +:+ "0.0.0.0," in
  let msg := msg +:+ "NA," in
  let msg := msg +:+ "NA," in
  msg +:+ "NA".

(** The number of commas in a string, one less than the number of fields
    a reader of the comma-separated line sees. *)
Fixpoint commas (s : string) : nat :=
  match s with
  | EmptyString => 0
  | String c rest => (if bool_decide (c = ","%char) then 1 else 0) + commas rest
  end.

(** ** The platform: process environment, engine, [uuid/v4], [AWS.Chime] *)

Class Platform : Type := {
  (** [process.env.DEBUG] *)
  env_DEBUG : option string;
  (** the page read from [dist/] at start-up *)
  indexPage : string;
  (** [require('./debug.js').debug] *)
  debug : gmap string QueryValue → Exn + JsValue;
  (** [JSON.stringify(value, null, space)]; [space] is 0 when not given *)
  JSON_stringify : JsValue → nat → string;
  (** the engine's message for reading property [p] of [undefined] *)
  cannot_read_property : string → string;
  (** the engine's message for calling a member that is [undefined] *)
  is_not_a_function : string → string;
  (** [uuid()]: version-4 UUIDs, 36 characters each *)
  Entropy : Type;
  uuid : Entropy → string * Entropy;
  uuid_length : ∀ e, String.length (uuid e).1 = 36%nat;
  (** [AWS.Chime]: each operation resolves or rejects, and moves the remote
      service to a new state *)
  Cloud : Type;
  chime_createMeeting :
    CreateMeetingRequest → Cloud → (Exn + CreateMeetingResponse) * Cloud;
  chime_createAttendee :
    CreateAttendeeRequest → Cloud → (Exn + CreateAttendeeResponse) * Cloud;
  chime_deleteMeeting : DeleteMeetingRequest → Cloud → (Exn + unit) * Cloud
}.

Section Server.

Context {P : Platform}.

(** [process.env.DEBUG] as a condition: set and not empty. *)
Definition DEBUG : bool :=
  match env_DEBUG with
  | Some s => negb (bool_decide (s = ""))
  | None => false
  end.

(** ** State *)

Record World : Type := {
  meetingTable : gmap string CreateMeetingResponse;
  cloud : Cloud;
  entropy : Entropy;
  calls : list ApiCall;          (* remote operations invoked, oldest first *)
  responseStatus : Z;            (* the handler's local of that name *)
  sent : list HttpResponse       (* what [response.end] has written *)
}.

(** What survives from one request to the next. *)
Record Server : Type := {
  server_table : gmap string CreateMeetingResponse;
  server_cloud : Cloud;
  server_entropy : Entropy
}.

(** The world in which a request starts: a fresh response object,
    [responseStatus = 200], and no remote call made yet. *)
Definition fresh (s : Server) : World :=
  {| meetingTable := server_table s; cloud := server_cloud s;
     entropy := server_entropy s; calls := []; responseStatus := 200; sent := [] |}.

(** The response of the [catch] block to [err]. *)
Definition bad_request (err : Exn) : HttpResponse :=
  {| statusCode := 400; contentType := "application/json";
     body := JSON_stringify (error_object err) 2 |}.

(** The world at the end of a request that answered [r] without a remote
    call and without touching the table. *)
Definition answered (s : Server) (r : HttpResponse) : World :=
  {| meetingTable := server_table s; cloud := server_cloud s;
     entropy := server_entropy s; calls := []; responseStatus := statusCode r;
     sent := [r] |}.

Definition Js (A : Type) : Type := World → (Exn + A) * World.

Definition ret {A} (a : A) : Js A := λ w, (inr a, w).

Definition throw {A} (err : Exn) : Js A := λ w, (inl err, w).

Definition bind {A B} (m : Js A) (k : A → Js B) : Js B :=
  λ w, match m w with
       | (inr a, w') => k a w'
       | (inl err, w') => (inl err, w')
       end.

Definition try_catch {A} (m : Js A) (handle : Exn → Js A) : Js A :=
  λ w, match m w with
       | (inr a, w') => (inr a, w')
       | (inl err, w') => handle err w'
       end.

#[global] Instance Js_ret : MRet Js := @ret.
#[global] Instance Js_bind : MBind Js := λ A B k m, bind m k.

(** ** Primitive effects *)

Definition set_responseStatus (code : Z) : Js unit :=
  λ w, (inr tt,
        {| meetingTable := meetingTable w; cloud := cloud w; entropy := entropy w;
           calls := calls w; responseStatus := code; sent := sent w |}).

Definition read_table (key : string) : Js TableValue :=
  λ w, (inr (table_get (meetingTable w) key), w).

(** [meetingTable[key] = value].  The handler assigns only under a key whose
    read was falsy, hence never under an inherited name. *)
Definition write_table (key : string) (value : CreateMeetingResponse) : Js unit :=
  λ w, (inr tt,
        {| meetingTable := <[key := value]> (meetingTable w); cloud := cloud w;
           entropy := entropy w; calls := calls w;
           responseStatus := responseStatus w; sent := sent w |}).

Definition next_uuid : Js string :=
  λ w, let '(u, e) := uuid (entropy w) in
       (inr u,
        {| meetingTable := meetingTable w; cloud := cloud w; entropy := e;
           calls := calls w; responseStatus := responseStatus w; sent := sent w |}).

(** [await op(params).promise()]: the call is logged, the service moves on,
    and a rejection is thrown at the [await].  The request is handled
    alone: nothing else writes the table while it is suspended here. *)
Definition await {A} (call : ApiCall) (op : Cloud → (Exn + A) * Cloud) : Js A :=
  λ w, let '(r, c) := op (cloud w) in
       (r,
        {| meetingTable := meetingTable w; cloud := c; entropy := entropy w;
           calls := calls w ++ [call]; responseStatus := responseStatus w;
           sent := sent w |}).

Definition createMeeting (params : CreateMeetingRequest) : Js CreateMeetingResponse :=
  await (CreateMeeting params) (chime_createMeeting params).

Definition createAttendee (params : CreateAttendeeRequest) : Js CreateAttendeeResponse :=
  await (CreateAttendee params) (chime_createAttendee params).

Definition deleteMeeting (params : DeleteMeetingRequest) : Js unit :=
  await (DeleteMeeting params) (chime_deleteMeeting params).

(** [respond(response, statusCode, contentType, body)].  [setHeader] throws
    once the response has been ended. *)
Definition respond (code : Z) (type : string) (content : string) : Js unit :=
  λ w, match sent w with
       | [] =>
           (inr tt,
            {| meetingTable := meetingTable w; cloud := cloud w; entropy := entropy w;
               calls := calls w; responseStatus := responseStatus w;
               sent := [ {| statusCode := code; contentType := type; body := content |} ] |})
       | _ :: _ => (inl (Error "Cannot set headers after they are sent to the client"), w)
       end.

(** [requestUrl.query.title.substring(0, 64)]: an array has no such method. *)
Definition title_substring (title : option QueryValue) : Js string :=
  match title with
  | Some (QString s) => ret (substring_to 64 s)
  | Some (QArray _) =>
      throw (TypeError (is_not_a_function "requestUrl.query.title.substring"))
  | None => throw (TypeError (cannot_read_property "substring"))
  end.

(** [meeting.Meeting.MeetingId], for [meeting] read from the table. *)
Definition Meeting_MeetingId (meeting : TableValue) : Js string :=
  match meeting with
  | Own m => ret (MeetingId (Meeting m))
  | Inherited _ => throw (TypeError (cannot_read_property "MeetingId"))
  | Undefined => throw (TypeError (cannot_read_property "Meeting"))
  end.

(** ** The handler *)

Definition join (request : Request) : Js unit :=
  let title := query request !! "title" in
  let name := query request !! "name" in
  let region := query request !! "region" in
  (if negb (truthy title) || negb (truthy name) || negb (truthy region)
   then throw (Error "Need parameters: title, name, region")
   else ret tt) ;;
  (found ← read_table (to_string title);
   if negb (table_truthy found)
   then
     token ← next_uuid;
     external ← title_substring title;
     created ← createMeeting {| ClientRequestToken := token;
                                MediaRegion := region;
                                ExternalMeetingId := external |};
     write_table (to_string title) created
   else ret tt) ;;
  meeting ← read_table (to_string title);
  id ← Meeting_MeetingId meeting;
  prefix ← next_uuid;
  attendee ← createAttendee
    {| attendee_MeetingId := id;
       ExternalUserId :=
         substring_to 64 (substring_to 8 prefix +:+ "#" +:+ to_string name) |};
  set_responseStatus 201 ;;
  respond 201 "application/json" (JSON_stringify (JoinInfo meeting attendee) 2).

Definition end_meeting (request : Request) : Js unit :=
  found ← read_table (to_string (query request !! "title"));
  id ← Meeting_MeetingId found;
  deleteMeeting {| delete_MeetingId := id |} ;;
  respond 200 "application/json" (JSON_stringify (JsObj []) 0).

Definition debug_join (request : Request) : Js unit :=
  set_responseStatus 201 ;;
  info ← (λ w, (debug (query request), w));
  respond 201 "application/json" (JSON_stringify info 2).

(** The body of the [try] block. *)
Definition route (request : Request) : Js unit :=
  if bool_decide (method request = "GET") && bool_decide (pathname request = "/")
  then respond 200 "text/html" indexPage
  else if DEBUG && bool_decide (method request = "POST")
               && bool_decide (pathname request = "/join")
  then debug_join request
  else if bool_decide (method request = "POST") && bool_decide (pathname request = "/join")
  then join request
  else if bool_decide (method request = "POST") && bool_decide (pathname request = "/end")
  then end_meeting request
  else
    set_responseStatus 404 ;;
    respond 404 "text/html" "404 Not Found".

(** The [catch] block. *)
Definition on_error (err : Exn) : Js unit :=
  set_responseStatus 400 ;;
  respond 400 "application/json" (JSON_stringify (error_object err) 2).

Definition handler (request : Request) : Js unit :=
  try_catch (route request) on_error.

(** The server once [request] has been handled: the table, the remote
    service and the UUID source are carried over to the next request. *)
Definition after (s : Server) (request : Request) : Server :=
  let w := (handler request (fresh s)).2 in
  {| server_table := meetingTable w; server_cloud := cloud w;
     server_entropy := entropy w |}.

(** ** Specifications of computations

    [triple pre m post]: run from a world in [pre], [m] ends, normally or
    by throwing, in a world and with a result in [post]. *)
Definition triple {A} (pre : World → Prop) (m : Js A)
    (post : Exn + A → World → Prop) : Prop :=
  ∀ w, pre w → post (m w).1 (m w).2.

(** [quiet m]: [m] does not respond.  [answers m]: [m] responds exactly
    once when it returns and not at all when it throws. *)
Definition unanswered (w : World) : Prop := sent w = [].

Definition quiet {A} (m : Js A) : Prop :=
  triple unanswered m (λ _ w, unanswered w).

Definition answers (m : Js unit) : Prop :=
  triple unanswered m
    (λ r w, match r with inr _ => length (sent w) = 1%nat | inl _ => unanswered w end).

(** No own property of the table hides a property of [Object.prototype]. *)
Definition prototype_visible (table : gmap string CreateMeetingResponse) : Prop :=
  ∀ key, key ∈ Object_prototype → table !! key = None.

(** The requests of a list handled one after the other, first to last. *)
Definition run (s : Server) (requests : list Request) : Server :=
  foldl after s requests.

(** The status codes of the responses written for [request]. *)
Definition statuses (s : Server) (request : Request) : list Z :=
  map statusCode (sent (handler request (fresh s)).2).

End Server.

(** ** The request listener

    The function given to [http.createServer] parses [request.url] with
    [url.parse(request.url, true)] before it enters the [try] block. *)

(** What [url.parse] throws on a URL it refuses. *)
Inductive UrlError : Type :=
  | URIError (message : string).

(** The members of [requestUrl] that the listener reads. *)
Record Url : Type := {
  url_pathname : string;
  url_query : gmap string QueryValue
}.

(** The [url] module of the runtime. *)
Class UrlModule : Type := {
  url_parse : string → UrlError + Url
}.

(** The [http.IncomingMessage]: [request.method] and [request.url]. *)
Record IncomingMessage : Type := {
  message_method : string;
  message_url : string
}.

Section Listener.

Context {P : Platform} {U : UrlModule}.

(** The request as the [try] block sees it. *)
Definition parsed (received : IncomingMessage) (url : Url) : Request :=
  {| method := message_method received; pathname := url_pathname url;
     query := url_query url |}.

(** The listener.  What [url.parse] throws is thrown outside the [try]
    block and leaves the listener; so would what [handler] throws. *)
Definition requestListener (received : IncomingMessage)
  : World → ((UrlError + Exn) + unit) * World :=
  λ w, match url_parse (message_url received) with
       | inl err => (inl (inl err), w)
       | inr url =>
           match handler (parsed received url) w with
           | (inl err, w') => (inl (inr err), w')
           | (inr tt, w') => (inr tt, w')
           end
       end.

(** The rejection, if any, with which the service answers [call] in state
    [c], and the state in which the call leaves the service. *)
Definition rejection (call : ApiCall) (c : Cloud) : option Exn :=
  match call with
  | CreateMeeting params =>
      match (chime_createMeeting params c).1 with inl err => Some err | inr _ => None end
  | CreateAttendee params =>
      match (chime_createAttendee params c).1 with inl err => Some err | inr _ => None end
  | DeleteMeeting params =>
      match (chime_deleteMeeting params c).1 with inl err => Some err | inr _ => None end
  end.

Definition settle (c : Cloud) (call : ApiCall) : Cloud :=
  match call with
  | CreateMeeting params => (chime_createMeeting params c).2
  | CreateAttendee params => (chime_createAttendee params c).2
  | DeleteMeeting params => (chime_deleteMeeting params c).2
  end.

(** The state of the service once [made] have been made, first to last. *)
Definition replay (made : list ApiCall) (c : Cloud) : Cloud := foldl settle c made.

End Listener.

(** ** A concrete platform

    A small stand-in for the engine and for the remote service, used to run
    the handler on concrete requests.  The service knows the meetings that
    are live; it accepts the media regions listed, refuses to add an
    attendee to a meeting that is not live, and numbers the meetings it
    creates. *)
Module Demo.

Definition quote : string := String (Ascii.ascii_of_nat 34) "".

(** A compact serialiser: it ignores [space] and does not escape. *)
Fixpoint stringify (v : JsValue) : string :=
  match v with
  | JsStr s => quote +:+ s +:+ quote
  | JsObj members =>
      "{" +:+ String.concat ","
                (map (λ kv : string * JsValue, quote +:+ kv.1 +:+ quote +:+ ":" +:+ stringify kv.2)
                     members) +:+ "}"
  end.

Definition uuid4 (n : nat) : string * nat :=
  (if Nat.even n then "1b9d6bcd-bbfd-4b2d-9b5d-ab8dfbbd4bed"
   else "9c5b94b1-35ad-49bb-b118-8e8fc24abf80", S n).

Definition uuid4_length (n : nat) : String.length (uuid4 n).1 = 36%nat :=
  match Nat.even n as even
    return String.length
             (if even then "1b9d6bcd-bbfd-4b2d-9b5d-ab8dfbbd4bed"
              else "9c5b94b1-35ad-49bb-b118-8e8fc24abf80") = 36%nat
  with
  | true => eq_refl
  | false => eq_refl
  end.

Record Service : Type := { created : nat; live : list string }.

Definition regions : list string := ["us-east-1"; "eu-central-1"; "ap-southeast-1"].

Definition create_meeting (params : CreateMeetingRequest) (c : Service)
  : (Exn + CreateMeetingResponse) * Service :=
  match MediaRegion params with
  | Some (QString r) =>
      if bool_decide (r ∈ regions)
      then
        let id := "meeting-" +:+ pretty (created c) in
        (inr {| Meeting := {| MeetingId := id;
                              MeetingMembers :=
                                [("ExternalMeetingId", JsStr (ExternalMeetingId params));
                                 ("MediaRegion", JsStr r)] |} |},
         {| created := S (created c); live := id :: live c |})
      else (inl (Error "Invalid media region"), c)
  | _ => (inl (Error "Expected params.MediaRegion to be a string"), c)
  end.

Definition create_attendee (params : CreateAttendeeRequest) (c : Service)
  : (Exn + CreateAttendeeResponse) * Service :=
  if bool_decide (attendee_MeetingId params ∈ live c)
  then (inr {| Attendee := JsObj [("ExternalUserId", JsStr (ExternalUserId params))] |}, c)
  else (inl (Error "The meeting has ended"), c).

Definition delete_meeting (params : DeleteMeetingRequest) (c : Service)
  : (Exn + unit) * Service :=
  if bool_decide (delete_MeetingId params ∈ live c)
  then (inr tt,
        {| created := created c;
           live := filter (λ id, id ≠ delete_MeetingId params) (live c) |})
  else (inl (Error "Meeting not found"), c).

Definition platform : Platform :=
  {| env_DEBUG := None;
     indexPage := "<!DOCTYPE html><html></html>";
     debug := λ _, inr (JsObj []);
     JSON_stringify := λ v _, stringify v;
     cannot_read_property := λ p, "Cannot read property '" +:+ p +:+ "' of undefined";
     is_not_a_function := λ e, e +:+ " is not a function";
     Entropy := nat;
     uuid := uuid4;
     uuid_length := uuid4_length;
     Cloud := Service;
     chime_createMeeting := create_meeting;
     chime_createAttendee := create_attendee;
     chime_deleteMeeting := delete_meeting |}.

(** A server just started. *)
Definition boot : Server (P := platform) :=
  @Build_Server platform ∅ {| created := 0; live := [] |} 0%nat.

Definition post (path : string) (params : list (string * QueryValue)) : Request :=
  {| method := "POST"; pathname := path; query := list_to_map params |}.

Definition join_request (title name region : string) : Request :=
  post "/join" [("title", QString title); ("name", QString name); ("region", QString region)].

Definition end_request (title : string) : Request :=
  post "/end" [("title", QString title)].

(** The server after a first Join for [standup], and after that meeting
    has been ended. *)
Definition joined : Server (P := platform) :=
  after boot (join_request "standup" "Ann" "us-east-1").

Definition ended : Server (P := platform) := after joined (end_request "standup").

(** The same platform started with [DEBUG=1]; the helper echoes the title. *)
Definition debugging : Platform :=
  {| env_DEBUG := Some "1";
     indexPage := "<!DOCTYPE html><html></html>";
     debug := λ q, match q !! "title" with
                   | Some (QString t) => inr (JsObj [("title", JsStr t)])
                   | _ => inl (Error "No title")
                   end;
     JSON_stringify := λ v _, stringify v;
     cannot_read_property := λ p, "Cannot read property '" +:+ p +:+ "' of undefined";
     is_not_a_function := λ e, e +:+ " is not a function";
     Entropy := nat;
     uuid := uuid4;
     uuid_length := uuid4_length;
     Cloud := Service;
     chime_createMeeting := create_meeting;
     chime_createAttendee := create_attendee;
     chime_deleteMeeting := delete_meeting |}.

Definition debugging_boot : Server (P := debugging) :=
  @Build_Server debugging ∅ {| created := 0; live := [] |} 0%nat.

(** The same platform with a service that throttles every CreateAttendee. *)
Definition throttled : Platform :=
  {| env_DEBUG := None;
     indexPage := "<!DOCTYPE html><html></html>";
     debug := λ _, inr (JsObj []);
     JSON_stringify := λ v _, stringify v;
     cannot_read_property := λ p, "Cannot read property '" +:+ p +:+ "' of undefined";
     is_not_a_function := λ e, e +:+ " is not a function";
     Entropy := nat;
     uuid := uuid4;
     uuid_length := uuid4_length;
     Cloud := Service;
     chime_createMeeting := create_meeting;
     chime_createAttendee := λ _ c, (inl (Error "Rate exceeded"), c);
     chime_deleteMeeting := delete_meeting |}.

Definition throttled_boot : Server (P := throttled) :=
  @Build_Server throttled ∅ {| created := 0; live := [] |} 0%nat.

(** A stand-in for [url.parse].  Like Node's, it throws [URIError] when
    the user-information part of an absolute URL holds a [%] that does not
    begin an escape.  Otherwise the path is what precedes the first [?], and
    the query is read as [key=value] pairs separated by [&], a repeated key
    giving an array; nothing is unescaped. *)
Fixpoint break_at (c : ascii) (s : string) : string * option string :=
  match s with
  | EmptyString => (EmptyString, None)
  | String a rest =>
      if bool_decide (a = c) then (EmptyString, Some rest)
      else let '(before, after) := break_at c rest in (String a before, after)
  end.

Fixpoint pieces (c : ascii) (s : string) : list string :=
  match s with
  | EmptyString => [EmptyString]
  | String a rest =>
      if bool_decide (a = c) then EmptyString :: pieces c rest
      else match pieces c rest with
           | piece :: others => String a piece :: others
           | [] => [String a EmptyString]
           end
  end.

Definition is_hex (a : ascii) : bool :=
  let n := nat_of_ascii a in
  (Nat.leb 48 n && Nat.leb n 57) || (Nat.leb 65 n && Nat.leb n 70)
  || (Nat.leb 97 n && Nat.leb n 102).

Fixpoint bad_escape (s : string) : bool :=
  match s with
  | EmptyString => false
  | String c rest =>
      if bool_decide (c = "%"%char)
      then match rest with
           | String a (String b rest') => negb (is_hex a && is_hex b) || bad_escape rest'
           | _ => true
           end
      else bad_escape rest
  end.

(** The authority and the rest of an absolute URL; [None] for a URL in
    origin form. *)
Definition absolute (url : string) : option (string * string) :=
  if String.prefix "http://" url
  then
    let '(authority, path) := break_at "/"%char (String.substring 7 (String.length url) url) in
    Some (authority, "/" +:+ default EmptyString path)
  else None.

Definition add_parameter (q : gmap string QueryValue) (pair : string) : gmap string QueryValue :=
  if bool_decide (pair = EmptyString) then q
  else
    let '(key, value) := break_at "="%char pair in
    let value := default EmptyString value in
    match q !! key with
    | None => <[key := QString value]> q
    | Some (QString first) => <[key := QArray [first; value]]> q
    | Some (QArray values) => <[key := QArray (values ++ [value])]> q
    end.

Definition parse_target (target : string) : Url :=
  let '(path, search) := break_at "?"%char target in
  {| url_pathname := path;
     url_query := foldl add_parameter ∅ (pieces "&"%char (default EmptyString search)) |}.

Definition parse (url : string) : UrlError + Url :=
  match absolute url with
  | Some (authority, target) =>
      match break_at "@"%char authority with
      | (user, Some _) =>
          if bad_escape user then inl (URIError "URI malformed")
          else inr (parse_target target)
      | (_, None) => inr (parse_target target)
      end
  | None => inr (parse_target url)
  end.

Definition node : UrlModule := {| url_parse := parse |}.

Definition incoming (verb url : string) : IncomingMessage :=
  {| message_method := verb; message_url := url |}.

(** A Join whose [title] came twice in the query string. *)
Definition repeated_title_request : Request :=
  post "/join" [("title", QArray ["stand"; "up"]); ("name", QString "Ann");
                ("region", QString "us-east-1")].

End Demo.

(** ** Properties *)

Section Properties.

Context {P : Platform}.

Ltac js_unfold :=
  unfold handler, try_catch, on_error, route, join, end_meeting, debug_join,
    createMeeting, createAttendee, deleteMeeting, await, respond, read_table,
    write_table, next_uuid, set_responseStatus, title_substring,
    Meeting_MeetingId, throw, ret, mbind, Js_bind, bind.

(** *** Strings *)

Lemma substring_to_length (n : nat) (str : string) :
  String.length (substring_to n str) = Nat.min n (String.length str).
Proof.
  unfold substring_to. revert n.
  induction str as [|c str IH]; intros [|n]; simpl; try reflexivity.
  by rewrite IH.
Qed.

Lemma append_length (a b : string) :
  String.length (a +:+ b) = (String.length a + String.length b)%nat.
Proof. induction a as [|c a IH]; simpl; [reflexivity|by rewrite IH]. Qed.

Lemma uuid_prefix_length (e : Entropy) :
  String.length (substring_to 8 (uuid e).1) = 8%nat.
Proof. rewrite substring_to_length, uuid_length. reflexivity. Qed.

(** *** Routing *)

Lemma route_join (request : Request) :
  DEBUG = false → method request = "POST" → pathname request = "/join" →
  route request = join request.
Proof.
  intros Hdebug Hm Hp. unfold route. rewrite Hdebug, Hm, Hp. reflexivity.
Qed.

Lemma route_end (request : Request) :
  method request = "POST" → pathname request = "/end" →
  route request = end_meeting request.
Proof.
  intros Hm Hp. unfold route. rewrite Hm, Hp.
  destruct DEBUG; reflexivity.
Qed.

Lemma route_other (request : Request) :
  ¬ (method request = "GET" ∧ pathname request = "/") →
  ¬ (method request = "POST" ∧ pathname request = "/join") →
  ¬ (method request = "POST" ∧ pathname request = "/end") →
  route request = (set_responseStatus 404 ;; respond 404 "text/html" "404 Not Found").
Proof.
  intros Hindex Hjoin Hend. unfold route.
  destruct DEBUG; repeat case_bool_decide; simpl; try reflexivity; tauto.
Qed.

(** *** The response discipline *)

Lemma triple_bind {A B} (m : Js A) (k : A → Js B) (pre : World → Prop)
    (mid : A → World → Prop) (post : Exn + B → World → Prop) :
  triple pre m (λ r w, match r with inr a => mid a w | inl err => post (inl err) w end) →
  (∀ a, triple (mid a) (k a) post) →
  triple pre (m ≫= k) post.
Proof.
  intros Hm Hk w Hpre. specialize (Hm w Hpre).
  unfold mbind, Js_bind, bind. destruct (m w) as [[err|a] w']; simpl in *.
  - exact Hm.
  - by apply Hk.
Qed.

Lemma quiet_ret {A} (a : A) : quiet (ret a).
Proof. by intros w Hw. Qed.

Lemma quiet_throw {A} (err : Exn) : quiet (throw (A := A) err).
Proof. by intros w Hw. Qed.

Lemma quiet_bind {A B} (m : Js A) (k : A → Js B) :
  quiet m → (∀ a, quiet (k a)) → quiet (m ≫= k).
Proof.
  intros Hm Hk. apply triple_bind with (mid := λ _, unanswered); [|exact Hk].
  intros w Hw. specialize (Hm w Hw). by destruct (m w) as [[err|a] w'].
Qed.

Lemma quiet_set_responseStatus (code : Z) : quiet (set_responseStatus code).
Proof. by intros w Hw. Qed.

Lemma quiet_read_table (key : string) : quiet (read_table key).
Proof. by intros w Hw. Qed.

Lemma quiet_write_table (key : string) (value : CreateMeetingResponse) :
  quiet (write_table key value).
Proof. by intros w Hw. Qed.

Lemma quiet_next_uuid : quiet next_uuid.
Proof. intros w Hw. unfold next_uuid. by destruct (uuid _). Qed.

Lemma quiet_await {A} (call : ApiCall) (op : Cloud → (Exn + A) * Cloud) :
  quiet (await call op).
Proof. intros w Hw. unfold await. by destruct (op _). Qed.

Lemma quiet_title_substring (title : option QueryValue) :
  quiet (title_substring title).
Proof. destruct title as [[t|items]|]; [apply quiet_ret | apply quiet_throw..]. Qed.

Lemma quiet_Meeting_MeetingId (meeting : TableValue) : quiet (Meeting_MeetingId meeting).
Proof. destruct meeting; [apply quiet_ret | apply quiet_throw..]. Qed.

Lemma answers_throw (err : Exn) : answers (throw err).
Proof. by intros w Hw. Qed.

Lemma answers_respond (code : Z) (type content : string) :
  answers (respond code type content).
Proof. intros w Hw. unfold respond. by rewrite Hw. Qed.

Lemma answers_bind {A} (m : Js A) (k : A → Js unit) :
  quiet m → (∀ a, answers (k a)) → answers (m ≫= k).
Proof.
  intros Hm Hk. apply triple_bind with (mid := λ _, unanswered); [|exact Hk].
  intros w Hw. specialize (Hm w Hw). by destruct (m w) as [[err|a] w'].
Qed.

Create HintDb js discriminated.

#[local] Hint Resolve quiet_ret quiet_throw quiet_set_responseStatus quiet_read_table
  quiet_write_table quiet_next_uuid quiet_await quiet_title_substring
  quiet_Meeting_MeetingId answers_throw answers_respond : js.

Ltac js_discipline :=
  repeat first
    [ apply answers_bind; [|intros ?]
    | apply quiet_bind; [|intros ?]
    | progress unfold createMeeting, createAttendee, deleteMeeting
    | solve [auto with js]
    | case_match ].

Lemma join_answers (request : Request) : answers (join request).
Proof. unfold join. cbv zeta. js_discipline. Qed.

Lemma end_meeting_answers (request : Request) : answers (end_meeting request).
Proof. unfold end_meeting. js_discipline. Qed.

Lemma debug_join_answers (request : Request) : answers (debug_join request).
Proof.
  unfold debug_join. js_discipline. by intros w Hw.
Qed.

Lemma route_answers (request : Request) : answers (route request).
Proof.
  unfold route.
  repeat case_match;
    auto using join_answers, end_meeting_answers, debug_join_answers with js.
  js_discipline.
Qed.

(** Whatever the parsed request, the [try]/[catch] statement ends without
    throwing, after exactly one response; and when the [try] block throws,
    that response is the 400 of the [catch] block. *)
Lemma handler_answers_once (request : Request) (s : Server) :
  let w := (handler request (fresh s)).2 in
  (handler request (fresh s)).1 = inr tt
  ∧ length (sent w) = 1%nat
  ∧ ∀ err w', route request (fresh s) = (inl err, w') →
      sent w = [bad_request err] ∧ statusCode (bad_request err) = 400.
Proof.
  intros w. subst w.
  pose proof (route_answers request (fresh s) eq_refl) as Hroute.
  unfold handler, try_catch.
  unfold unanswered in Hroute.
  destruct (route request (fresh s)) as [[err|[]] w1]; simpl in *.
  - unfold on_error. js_unfold. simpl. rewrite Hroute.
    split; [done|split; [done|]]. by intros err' w2 [= <- <-].
  - split; [done|split; [done|]]. intros err' w2 [=].
Qed.

(** *** Requests that are refused before any remote call *)

Lemma join_refused (request : Request) (s : Server) :
  DEBUG = false → method request = "POST" → pathname request = "/join" →
  truthy (query request !! "title") && truthy (query request !! "name")
    && truthy (query request !! "region") = false →
  handler request (fresh s)
  = (inr tt, answered s (bad_request (Error "Need parameters: title, name, region"))).
Proof.
  intros Hdebug Hm Hp Hfalsy.
  unfold handler, try_catch. rewrite route_join by done.
  unfold join.
  destruct (truthy (query request !! "title")),
           (truthy (query request !! "name")),
           (truthy (query request !! "region")); try discriminate; reflexivity.
Qed.

(** C5: a Join request (POST /join, debug flag unset) that lacks [title],
    [name] or [region] is answered 400 with the JSON body
    [{error: "Need parameters: title, name, region"}]; no remote call is made
    and the meeting table is as before. *)
Theorem join_missing_parameter (request : Request) (s : Server) :
  let w := (handler request (fresh s)).2 in
  DEBUG = false → method request = "POST" → pathname request = "/join" →
  query request !! "title" = None ∨ query request !! "name" = None
    ∨ query request !! "region" = None →
  (handler request (fresh s)).1 = inr tt
  ∧ sent w = [bad_request (Error "Need parameters: title, name, region")]
  ∧ statusCode (bad_request (Error "Need parameters: title, name, region")) = 400
  ∧ calls w = []
  ∧ meetingTable w = server_table s.
Proof.
  intros w Hdebug Hm Hp Hmissing. subst w.
  rewrite join_refused; [by repeat split|done..|].
  destruct Hmissing as [-> | [-> | ->]]; simpl;
    rewrite ?andb_false_r; reflexivity.
Qed.

(** C10: a Join request (POST /join, debug flag unset) whose [title], [name]
    or [region] is present but is the empty string is answered 400 with the
    validation message; no remote call is made and the meeting table is as
    before. *)
Theorem join_empty_parameter (request : Request) (s : Server) :
  let w := (handler request (fresh s)).2 in
  DEBUG = false → method request = "POST" → pathname request = "/join" →
  query request !! "title" = Some (QString "")
    ∨ query request !! "name" = Some (QString "")
    ∨ query request !! "region" = Some (QString "") →
  (handler request (fresh s)).1 = inr tt
  ∧ sent w = [bad_request (Error "Need parameters: title, name, region")]
  ∧ statusCode (bad_request (Error "Need parameters: title, name, region")) = 400
  ∧ calls w = []
  ∧ meetingTable w = server_table s.
Proof.
  intros w Hdebug Hm Hp Hempty. subst w.
  rewrite join_refused; [by repeat split|done..|].
  destruct Hempty as [-> | [-> | ->]]; simpl;
    rewrite ?andb_false_r; reflexivity.
Qed.

(** C8: a request that is neither GET /, POST /join nor POST /end is
    answered 404 with the text [404 Not Found]; no remote call is made and
    the table and the remote service are as before. *)
Theorem not_found (request : Request) (s : Server) :
  let w := (handler request (fresh s)).2 in
  ¬ (method request = "GET" ∧ pathname request = "/") →
  ¬ (method request = "POST" ∧ pathname request = "/join") →
  ¬ (method request = "POST" ∧ pathname request = "/end") →
  (handler request (fresh s)).1 = inr tt
  ∧ sent w = [ {| statusCode := 404; contentType := "text/html";
                  body := "404 Not Found" |} ]
  ∧ calls w = []
  ∧ meetingTable w = server_table s
  ∧ cloud w = server_cloud s.
Proof.
  intros w Hindex Hjoin Hend. subst w.
  unfold handler, try_catch. rewrite route_other by done.
  by repeat split.
Qed.

(** *** What a request can do to the table *)

(** A request leaves the table as it was or adds one response under a key
    that read as [undefined]. *)
Lemma route_table (request : Request) (w : World) :
  meetingTable (route request w).2 = meetingTable w
  ∨ ∃ key created,
      table_get (meetingTable w) key = Undefined
      ∧ meetingTable (route request w).2 = <[key := created]> (meetingTable w).
Proof.
  unfold route. repeat case_match.
  - left. js_unfold. by destruct (sent w).
  - left. unfold debug_join. js_unfold. simpl.
    destruct (debug _); simpl; [done|]. by destruct (sent w).
  - unfold join. cbv zeta. case_match; [by left|].
    set (key := to_string (query request !! "title")).
    js_unfold. simpl.
    destruct (table_get (meetingTable w) key) eqn:Hget; simpl.
    + left. rewrite Hget. simpl. destruct (uuid _). simpl.
      destruct (chime_createAttendee _ _) as [[?|?] ?]; simpl; [done|].
      by destruct (sent w).
    + left. by rewrite Hget.
    + destruct (uuid _). simpl.
      destruct (query request !! "title") as [[?|?]|]; simpl; try by left.
      destruct (chime_createMeeting _ _) as [[?|created] ?]; simpl; [by left|].
      right. exists key, created. split; [done|].
      unfold table_get. rewrite lookup_insert_eq. simpl.
      destruct (uuid _). simpl.
      destruct (chime_createAttendee _ _) as [[?|?] ?]; simpl; [done|].
      by destruct (sent w).
  - left. unfold end_meeting. js_unfold. simpl.
    destruct (table_get _ _); simpl; try done.
    destruct (chime_deleteMeeting _ _) as [[?|?] ?]; simpl; [done|].
    by destruct (sent w).
  - left. js_unfold. simpl. by destruct (sent w).
Qed.

Lemma on_error_table (err : Exn) (w : World) :
  meetingTable (on_error err w).2 = meetingTable w.
Proof. unfold on_error. js_unfold. simpl. by destruct (sent w). Qed.

Lemma handler_table (request : Request) (w : World) :
  meetingTable (handler request w).2 = meetingTable w
  ∨ ∃ key created,
      table_get (meetingTable w) key = Undefined
      ∧ meetingTable (handler request w).2 = <[key := created]> (meetingTable w).
Proof.
  pose proof (route_table request w) as Hroute.
  unfold handler, try_catch.
  destruct (route request w) as [[err|[]] w1]; simpl in *; [|done].
  by rewrite on_error_table.
Qed.

Lemma table_get_undefined (table : gmap string CreateMeetingResponse) (key : string) :
  table_get table key = Undefined → table !! key = None ∧ key ∉ Object_prototype.
Proof.
  unfold table_get. destruct (table !! key); [done|].
  case_bool_decide; [done|]. by intros _.
Qed.

(** The handler never assigns under a name inherited from
    [Object.prototype]: the table keeps the prototype visible, request
    after request. *)
Lemma after_prototype_visible (s : Server) (request : Request) :
  prototype_visible (server_table s) → prototype_visible (server_table (after s request)).
Proof.
  intros Hvisible key Hin. unfold after. simpl.
  destruct (handler_table request (fresh s)) as [-> | (k & created & Hget & ->)];
    [by apply Hvisible|].
  apply table_get_undefined in Hget as [_ Hk].
  rewrite lookup_insert_ne; [by apply Hvisible|]. by intros ->.
Qed.

(** *** End *)

(** C6: an End request never changes the meeting table, whether the
    deletion succeeds or fails: every title reads after End as it did
    before.  And no request of any kind removes or replaces an entry. *)
Theorem end_keeps_table (request : Request) (s : Server) :
  let w := (handler request (fresh s)).2 in
  (method request = "POST" → pathname request = "/end" →
   meetingTable w = server_table s)
  ∧ (∀ title stored,
       server_table s !! title = Some stored → meetingTable w !! title = Some stored).
Proof.
  intros w. subst w. split.
  - intros Hm Hp.
    unfold handler, try_catch. rewrite route_end by done.
    js_unfold. simpl.
    destruct (table_get _ _); simpl; try reflexivity.
    destruct (chime_deleteMeeting _ _) as [[err|[]] c]; reflexivity.
  - intros title stored Hstored.
    destruct (handler_table request (fresh s)) as [-> | (k & created & Hget & ->)];
      [done|].
    apply table_get_undefined in Hget as [Hk _]. simpl in Hk.
    rewrite lookup_insert_ne; [done|]. intros ->. simpl in Hstored. congruence.
Qed.

(** C3 (amended): an End request for a title with no entry in the table
    throws a [TypeError] inside the [try] block before any remote call
    (reading [Meeting] of [undefined], or [MeetingId] of [undefined] when the
    title names a property of [Object.prototype]); the [catch] block handles
    it: the request is answered 400 with the error's message as JSON. *)
Theorem end_unknown_title (request : Request) (s : Server) :
  let key := to_string (query request !! "title") in
  let err := TypeError (cannot_read_property
                          (if bool_decide (key ∈ Object_prototype)
                           then "MeetingId" else "Meeting")) in
  let w := (handler request (fresh s)).2 in
  method request = "POST" → pathname request = "/end" →
  server_table s !! key = None →
  route request (fresh s) = (inl err, fresh s)
  ∧ (handler request (fresh s)).1 = inr tt
  ∧ sent w = [bad_request err]
  ∧ statusCode (bad_request err) = 400
  ∧ calls w = []
  ∧ meetingTable w = server_table s.
Proof.
  intros key err w Hm Hp Habsent. subst w.
  unfold handler, try_catch. rewrite route_end by done.
  js_unfold. simpl. unfold table_get. fold key. rewrite Habsent.
  subst err. by case_bool_decide.
Qed.

(** *** Join *)

(** C2 (amended): a Join request (POST /join, debug flag unset, [title],
    [name] and [region] truthy) whose title has an entry in the table makes
    no CreateMeeting call and leaves the table as it was; it makes exactly
    one call, a CreateAttendee against the stored meeting's identifier, and
    is answered 201 with the stored meeting and the new attendee when that
    call resolves, 400 with the rejection's message when it is rejected. *)
Theorem join_known_title (request : Request) (s : Server)
    (stored : CreateMeetingResponse) :
  let key := to_string (query request !! "title") in
  let name := query request !! "name" in
  let prefix := (uuid (server_entropy s)).1 in
  let add :=
    {| attendee_MeetingId := MeetingId (Meeting stored);
       ExternalUserId := substring_to 64 (substring_to 8 prefix +:+ "#" +:+ to_string name) |} in
  let w := (handler request (fresh s)).2 in
  DEBUG = false → method request = "POST" → pathname request = "/join" →
  truthy (query request !! "title") = true → truthy name = true →
  truthy (query request !! "region") = true →
  server_table s !! key = Some stored →
  (handler request (fresh s)).1 = inr tt
  ∧ calls w = [CreateAttendee add]
  ∧ meetingTable w = server_table s
  ∧ sent w = [ match (chime_createAttendee add (server_cloud s)).1 with
               | inr attendee =>
                   {| statusCode := 201; contentType := "application/json";
                      body := JSON_stringify (JoinInfo (Own stored) attendee) 2 |}
               | inl err => bad_request err
               end ].
Proof.
  intros key name prefix add w Hdebug Hm Hp Htitle Hname Hregion Hstored.
  subst w add prefix name.
  assert (Hget : table_get (server_table s) key = Own stored).
  { unfold table_get. by rewrite Hstored. }
  unfold handler, try_catch. rewrite route_join by done.
  unfold join. cbv zeta. fold key. clearbody key.
  rewrite Htitle, Hname, Hregion. js_unfold. simpl.
  rewrite Hget. simpl. rewrite Hget. simpl.
  destruct (uuid (server_entropy s)) as [u e]. simpl.
  destruct (chime_createAttendee _ _) as [[err|attendee] c]; by repeat split.
Qed.

(** C1 (amended): a Join request (POST /join, debug flag unset) whose
    [title] is a non-empty string, whose [name] and [region] are truthy and
    whose title reads as [undefined] from the table makes, when both remote
    calls resolve, exactly one CreateMeeting call followed by exactly one
    CreateAttendee call, stores the CreateMeeting result under the title,
    and is answered 201 with the JSON body [{JoinInfo: {Meeting, Attendee}}]. *)
Theorem join_new_title (request : Request) (s : Server) (title : string)
    (name region : QueryValue) (created : CreateMeetingResponse)
    (attendee : CreateAttendeeResponse) (c1 c2 : Cloud) :
  let token := uuid (server_entropy s) in
  let prefix := uuid token.2 in
  let create :=
    {| ClientRequestToken := token.1; MediaRegion := Some region;
       ExternalMeetingId := substring_to 64 title |} in
  let add :=
    {| attendee_MeetingId := MeetingId (Meeting created);
       ExternalUserId :=
         substring_to 64 (substring_to 8 prefix.1 +:+ "#" +:+ to_string (Some name)) |} in
  DEBUG = false → method request = "POST" → pathname request = "/join" →
  query request !! "title" = Some (QString title) → title ≠ "" →
  query request !! "name" = Some name → truthy (Some name) = true →
  query request !! "region" = Some region → truthy (Some region) = true →
  table_get (server_table s) title = Undefined →
  chime_createMeeting create (server_cloud s) = (inr created, c1) →
  chime_createAttendee add c1 = (inr attendee, c2) →
  handler request (fresh s)
  = (inr tt,
     {| meetingTable := <[title := created]> (server_table s);
        cloud := c2;
        entropy := prefix.2;
        calls := [CreateMeeting create; CreateAttendee add];
        responseStatus := 201;
        sent := [ {| statusCode := 201; contentType := "application/json";
                     body := JSON_stringify (JoinInfo (Own created) attendee) 2 |} ] |}).
Proof.
  intros token prefix create add Hdebug Hm Hp Htitle Hne Hname Hnamet
    Hregion Hregiont Hget Hcreate Hadd.
  subst add create prefix token.
  unfold handler, try_catch. rewrite route_join by done.
  unfold join. cbv zeta. rewrite Htitle, Hname, Hregion, Hnamet, Hregiont.
  assert (Ht : truthy (Some (QString title)) = true).
  { simpl. by rewrite bool_decide_eq_false_2. }
  rewrite Ht. js_unfold. simpl. rewrite Hget. simpl.
  destruct (uuid (server_entropy s)) as [u1 e1]. simpl in *.
  rewrite Hcreate. simpl.
  unfold table_get. rewrite lookup_insert_eq. simpl.
  destruct (uuid e1) as [u2 e2]. simpl in *.
  rewrite Hadd. simpl. reflexivity.
Qed.

(** C7 (amended): in a Join request (POST /join, debug flag unset), the
    [ExternalUserId] of every CreateAttendee call is the first 8 characters
    of a fresh UUID, the character [#] and the caller's name, in this order,
    cut to at most 64 characters; the [ExternalMeetingId] of every
    CreateMeeting call is the title cut to at most 64 characters. *)
Theorem join_external_ids (request : Request) (s : Server) :
  let w := (handler request (fresh s)).2 in
  DEBUG = false → method request = "POST" → pathname request = "/join" →
  (∀ params, CreateMeeting params ∈ calls w →
     ∃ title, query request !! "title" = Some (QString title)
       ∧ ExternalMeetingId params = substring_to 64 title
       ∧ (String.length (ExternalMeetingId params) ≤ 64)%nat)
  ∧ (∀ params, CreateAttendee params ∈ calls w →
     ∃ name e, query request !! "name" = Some name
       ∧ String.length (substring_to 8 (uuid e).1) = 8%nat
       ∧ ExternalUserId params
         = substring_to 64 (substring_to 8 (uuid e).1 +:+ "#" +:+ to_string (Some name))
       ∧ (String.length (ExternalUserId params) ≤ 64)%nat).
Proof.
  intros w Hdebug Hm Hp. subst w.
  (* the two shapes a call of this request can have *)
  assert (Hmeeting : ∀ title token region,
    query request !! "title" = Some (QString title) →
    ∃ t, query request !! "title" = Some (QString t)
      ∧ ExternalMeetingId
          {| ClientRequestToken := token; MediaRegion := region;
             ExternalMeetingId := substring_to 64 title |} = substring_to 64 t
      ∧ (String.length (substring_to 64 title) ≤ 64)%nat).
  { intros title token region Htitle. exists title.
    rewrite substring_to_length. repeat split; [done|lia]. }
  assert (Hattendee : ∀ name e id,
    query request !! "name" = Some name →
    ∃ n e', query request !! "name" = Some n
      ∧ String.length (substring_to 8 (uuid e').1) = 8%nat
      ∧ ExternalUserId
          {| attendee_MeetingId := id;
             ExternalUserId :=
               substring_to 64 (substring_to 8 (uuid e).1 +:+ "#" +:+ to_string (Some name)) |}
        = substring_to 64 (substring_to 8 (uuid e').1 +:+ "#" +:+ to_string (Some n))
      ∧ (String.length
           (substring_to 64 (substring_to 8 (uuid e).1 +:+ "#" +:+ to_string (Some name)))
         ≤ 64)%nat).
  { intros name e id Hname. exists name, e.
    rewrite uuid_prefix_length, substring_to_length. repeat split; [done|lia]. }
  unfold handler, try_catch. rewrite route_join by done.
  unfold join. cbv zeta.
  destruct (negb (truthy (query request !! "title"))
            || negb (truthy (query request !! "name"))
            || negb (truthy (query request !! "region"))) eqn:Hvalid;
    [split; intros params Hin; simpl in Hin; set_solver|].
  apply orb_false_elim in Hvalid as [Hvalid _].
  apply orb_false_elim in Hvalid as [_ Hname].
  destruct (query request !! "name") as [name|] eqn:Hn; [clear Hname|discriminate].
  js_unfold. simpl.
  destruct (table_get (server_table s) (to_string (query request !! "title")))
    as [stored|inherited|] eqn:Hget; simpl.
  - (* the title is stored: one CreateAttendee *)
    rewrite Hget. simpl.
    pose proof (Hattendee name (server_entropy s) (MeetingId (Meeting stored)) eq_refl)
      as Hgood.
    destruct (uuid (server_entropy s)) as [u e]. simpl in *.
    destruct (chime_createAttendee _ _) as [[err|attendee] c]; simpl;
      split; intros params Hin; set_solver.
  - (* the title is inherited: no call *)
    rewrite Hget. simpl. split; intros params Hin; simpl in Hin; set_solver.
  - (* the title reads as undefined: CreateMeeting, then CreateAttendee *)
    destruct (query request !! "title") as [[title|items]|] eqn:Ht; simpl;
      try by (destruct (uuid (server_entropy s)); simpl;
              split; intros params Hin; simpl in Hin; set_solver).
    pose proof (Hmeeting title (uuid (server_entropy s)).1
                  (query request !! "region") eq_refl) as Hgood.
    destruct (uuid (server_entropy s)) as [u1 e1]. simpl in *.
    destruct (chime_createMeeting _ _) as [[err|created] c1]; simpl.
    { split; intros params Hin; simpl in Hin; set_solver. }
    unfold table_get. rewrite lookup_insert_eq. simpl.
    pose proof (Hattendee name e1 (MeetingId (Meeting created)) eq_refl) as Hgood'.
    destruct (uuid e1) as [u2 e2]. simpl in *.
    destruct (chime_createAttendee _ _) as [[err|attendee] c2]; simpl;
      split; intros params Hin; set_solver.
Qed.

(** *** Titles that name a property of [Object.prototype] *)

Lemma empty_not_inherited : "" ∉ Object_prototype.
Proof. apply (bool_decide_unpack _). vm_compute. exact I. Qed.

Lemma undefined_not_inherited : "undefined" ∉ Object_prototype.
Proof. apply (bool_decide_unpack _). vm_compute. exact I. Qed.

Lemma inherited_key_truthy (title : option QueryValue) :
  to_string title ∈ Object_prototype → truthy title = true.
Proof.
  destruct title as [[t|items]|]; simpl; intros Hin; try reflexivity.
  - case_bool_decide; [subst; by destruct empty_not_inherited|done].
  - by destruct undefined_not_inherited.
Qed.

(** C9: a Join request (POST /join, debug flag unset) whose title names a
    property of [Object.prototype] and has no entry in the table finds the
    presence check truthy; it makes no remote call, hence no CreateMeeting
    call, leaves the table as it was and is answered 400: with the
    [TypeError] of reading [MeetingId] of [undefined] when [name] and
    [region] are given, with the validation message otherwise. *)
Theorem join_inherited_title (request : Request) (s : Server) :
  let key := to_string (query request !! "title") in
  let err :=
    if truthy (query request !! "name") && truthy (query request !! "region")
    then TypeError (cannot_read_property "MeetingId")
    else Error "Need parameters: title, name, region" in
  let w := (handler request (fresh s)).2 in
  DEBUG = false → method request = "POST" → pathname request = "/join" →
  key ∈ Object_prototype →
  server_table s !! key = None →
  table_truthy (table_get (server_table s) key) = true
  ∧ (handler request (fresh s)).1 = inr tt
  ∧ sent w = [bad_request err]
  ∧ statusCode (bad_request err) = 400
  ∧ calls w = []
  ∧ meetingTable w = server_table s.
Proof.
  intros key err w Hdebug Hm Hp Hin Habsent. subst w err.
  assert (Hget : table_get (server_table s) key = Inherited key).
  { unfold table_get. rewrite Habsent. by rewrite bool_decide_eq_true_2. }
  split; [by rewrite Hget|].
  pose proof (inherited_key_truthy _ Hin) as Htitle.
  destruct (truthy (query request !! "name") && truthy (query request !! "region"))
    eqn:Hrest.
  - apply andb_true_iff in Hrest as [Hname Hregion].
    unfold handler, try_catch. rewrite route_join by done.
    unfold join. cbv zeta. fold key. clearbody key.
    rewrite Htitle, Hname, Hregion. js_unfold. simpl.
    rewrite Hget. simpl. rewrite Hget. by repeat split.
  - rewrite join_refused; [by repeat split|done..|].
    rewrite Htitle. exact Hrest.
Qed.

End Properties.

(** ** Further properties of the handler *)

Section Coverage.

Context {P : Platform}.

Ltac js_unfold :=
  unfold handler, try_catch, on_error, route, join, end_meeting, debug_join,
    createMeeting, createAttendee, deleteMeeting, await, respond, read_table,
    write_table, next_uuid, set_responseStatus, title_substring,
    Meeting_MeetingId, throw, ret, mbind, Js_bind, bind.

(** *** Reading the table and the routing conditions *)

Lemma table_get_insert (table : gmap string CreateMeetingResponse) (key : string)
    (value : CreateMeetingResponse) :
  table_get (<[key := value]> table) key = Own value.
Proof. unfold table_get. by rewrite lookup_insert_eq. Qed.

Lemma table_get_own (table : gmap string CreateMeetingResponse) (key : string)
    (value : CreateMeetingResponse) :
  table_get table key = Own value → table !! key = Some value.
Proof. unfold table_get. destruct (table !! key); [congruence|]. by case_bool_decide. Qed.

Lemma debug_off (request : Request) :
  DEBUG && bool_decide (method request = "POST")
    && bool_decide (pathname request = "/join") = false →
  method request = "POST" → pathname request = "/join" → DEBUG = false.
Proof. intros H Hm Hp. rewrite Hm, Hp in H. by destruct DEBUG. Qed.

Lemma table_falsy (v : TableValue) : negb (table_truthy v) = true → v = Undefined.
Proof. by destruct v. Qed.

(** Runs the handler along every path, one goal for each. *)
Ltac js_paths :=
  js_unfold; cbv zeta; simpl;
  repeat (case_match; simpl in *;
          repeat match goal with
            | H : table_get (<[_:=_]> _) _ = _ |- _ => rewrite table_get_insert in H
            | H : negb (table_truthy _) = true |- _ => apply table_falsy in H
            end;
          simplify_eq);
  simpl in *.

(** Turns the conditions met on a path into equations. *)
Ltac js_conditions :=
  repeat match goal with
    | H : _ && _ = true |- _ => apply andb_true_iff in H as [? ?]
    | H : _ || _ = false |- _ => apply orb_false_elim in H as [? ?]
    | H : negb _ = false |- _ => apply negb_false_iff in H
    | H : bool_decide _ = true |- _ => apply bool_decide_eq_true in H
    end.

(** *** The response *)

(** X1: the status kept in [responseStatus] for the metrics line is the
    status code of the one response that was sent. *)
Theorem logged_status_is_sent_status (request : Request) (s : Server) :
  let w := (handler request (fresh s)).2 in
  ∃ r, sent w = [r] ∧ responseStatus w = statusCode r.
Proof.
  intros w. subst w. js_paths; eexists; split; reflexivity.
Qed.

(** X2: the handler answers 200, 201, 400 or 404 and nothing else: 200
    only to GET / and POST /end, 201 only to POST /join, 400 only to
    POST /join and POST /end, 404 only to a request that matches no route. *)
Theorem status_tells_route (request : Request) (s : Server) :
  let w := (handler request (fresh s)).2 in
  ∃ r, sent w = [r]
    ∧ (statusCode r = 200
         ∧ (method request = "GET" ∧ pathname request = "/"
            ∨ method request = "POST" ∧ pathname request = "/end")
       ∨ statusCode r = 201 ∧ method request = "POST" ∧ pathname request = "/join"
       ∨ statusCode r = 400 ∧ method request = "POST"
           ∧ (pathname request = "/join" ∨ pathname request = "/end")
       ∨ statusCode r = 404
           ∧ ¬ (method request = "GET" ∧ pathname request = "/")
           ∧ ¬ (method request = "POST" ∧ pathname request = "/join")
           ∧ ¬ (method request = "POST" ∧ pathname request = "/end")).
Proof.
  intros w. subst w.
  js_paths; js_conditions; eexists; (split; [reflexivity|]); simpl;
    lazymatch goal with
    | |- 200 = 200 ∧ _ ∨ _ =>
        left; split; [reflexivity|];
        first [left; split; assumption | right; split; assumption]
    | |- 201 = 200 ∧ _ ∨ _ => right; left; repeat split; assumption
    | |- 400 = 200 ∧ _ ∨ _ =>
        right; right; left; split; [reflexivity|]; split; [assumption|];
        first [left; assumption | right; assumption]
    | |- 404 = 200 ∧ _ ∨ _ =>
        right; right; right; split; [reflexivity|];
        repeat split; intros [Hm Hp];
        repeat match goal with
          | H : _ && _ = false |- _ =>
              rewrite Hm, Hp in H; try discriminate H; clear H
          end;
        destruct DEBUG; discriminate
    end.
Qed.

(** *** The remote calls *)

(** X3: a request makes no remote call, or one DeleteMeeting call (POST
    /end only), or, for POST /join with the debug flag unset, one
    CreateAttendee call, one CreateMeeting call, or a CreateMeeting call
    followed by a CreateAttendee call.  Join never deletes, End never
    creates, and no request makes more than two calls. *)
Theorem calls_by_route (request : Request) (s : Server) :
  let w := (handler request (fresh s)).2 in
  calls w = []
  ∨ (method request = "POST" ∧ pathname request = "/end"
     ∧ ∃ params, calls w = [DeleteMeeting params])
  ∨ (DEBUG = false ∧ method request = "POST" ∧ pathname request = "/join"
     ∧ ((∃ add, calls w = [CreateAttendee add])
        ∨ (∃ create, calls w = [CreateMeeting create])
        ∨ (∃ create add, calls w = [CreateMeeting create; CreateAttendee add]))).
Proof.
  intros w. subst w.
  js_paths; js_conditions;
    lazymatch goal with
    | |- [] = [] ∨ _ => left; reflexivity
    | |- [DeleteMeeting _] = [] ∨ _ =>
        right; left; split; [assumption|split; [assumption|eexists; reflexivity]]
    | |- _ =>
        right; right;
        split; [eapply debug_off; eassumption|];
        split; [assumption|]; split; [assumption|];
        lazymatch goal with
        | |- (∃ add, [CreateAttendee _] = _) ∨ _ => left; eexists; reflexivity
        | |- _ ∨ (∃ c, [CreateMeeting _] = _) ∨ _ => right; left; eexists; reflexivity
        | |- _ => right; right; do 2 eexists; reflexivity
        end
    end.
Qed.

(** X4: whenever a request handled alone, with no other request in
    flight, calls CreateAttendee, the meeting it names is the one stored in
    the table under the request's title when the request ends, be it the
    one found there or the one just created. *)
Theorem attendee_joins_stored_meeting (request : Request) (s : Server) :
  let w := (handler request (fresh s)).2 in
  ∀ add, CreateAttendee add ∈ calls w →
    ∃ stored, meetingTable w !! to_string (query request !! "title") = Some stored
      ∧ attendee_MeetingId add = MeetingId (Meeting stored).
Proof.
  intros w add. subst w.
  js_paths; intros Hin;
    repeat (apply elem_of_cons in Hin as [Hin|Hin]; [try discriminate Hin|]);
    try (by apply elem_of_nil in Hin);
    injection Hin as ->;
    eexists; (split; [|reflexivity]);
    first [apply lookup_insert_eq | by apply table_get_own].
Qed.

(** X5: CreateMeeting is called only by POST /join with the debug flag
    unset and only when the title reads as [undefined] from the table; the
    call carries a fresh 36-character UUID as [ClientRequestToken], the
    caller's [region] as it came as [MediaRegion], and the title cut to 64
    characters as [ExternalMeetingId]. *)
Theorem create_only_for_unknown_title (request : Request) (s : Server) :
  let w := (handler request (fresh s)).2 in
  let title := query request !! "title" in
  ∀ create, CreateMeeting create ∈ calls w →
    DEBUG = false ∧ method request = "POST" ∧ pathname request = "/join"
    ∧ table_get (server_table s) (to_string title) = Undefined
    ∧ create = {| ClientRequestToken := (uuid (server_entropy s)).1;
                  MediaRegion := query request !! "region";
                  ExternalMeetingId := substring_to 64 (to_string title) |}
    ∧ String.length (ClientRequestToken create) = 36%nat.
Proof.
  intros w title create. subst w title.
  pose proof (uuid_length (server_entropy s)) as Hlength.
  js_paths; js_conditions; intros Hin;
    repeat (apply elem_of_cons in Hin as [Hin|Hin]; [try discriminate Hin|]);
    try (by apply elem_of_nil in Hin);
    injection Hin as ->;
    (split; [eapply debug_off; eassumption|]);
    match goal with
    | H : uuid (server_entropy s) = _ |- _ => rewrite H in Hlength; rewrite H
    end;
    repeat split; first [assumption | reflexivity].
Qed.

(** X6: a request handled alone, with no other request in flight,
    changes the table only by storing, under its title, the response that
    the service gave to its CreateMeeting call, and only where the title had
    no entry. *)
Theorem table_stores_created_meeting (request : Request) (s : Server) :
  let w := (handler request (fresh s)).2 in
  let title := to_string (query request !! "title") in
  meetingTable w = server_table s
  ∨ ∃ create created after_create,
      head (calls w) = Some (CreateMeeting create)
      ∧ chime_createMeeting create (server_cloud s) = (inr created, after_create)
      ∧ server_table s !! title = None
      ∧ meetingTable w = <[title := created]> (server_table s).
Proof.
  intros w title. subst w title.
  js_paths;
    lazymatch goal with
    | |- ?t = ?t ∨ _ => left; reflexivity
    | |- _ =>
        right; do 3 eexists; (split; [reflexivity|]);
        (split; [eassumption|]); (split; [|reflexivity]);
        by eapply table_get_undefined
    end.
Qed.

(** *** Routes the claims leave out *)

(** X7: GET / is answered 200 with the index page as [text/html], whatever
    the query and the debug flag; no remote call is made and the table is
    as before. *)
Theorem index_page (request : Request) (s : Server) :
  let w := (handler request (fresh s)).2 in
  method request = "GET" → pathname request = "/" →
  (handler request (fresh s)).1 = inr tt
  ∧ sent w = [ {| statusCode := 200; contentType := "text/html"; body := indexPage |} ]
  ∧ calls w = []
  ∧ meetingTable w = server_table s.
Proof.
  intros w Hm Hp. subst w.
  unfold handler, try_catch, route. rewrite Hm, Hp. simpl. by repeat split.
Qed.

(** X8: an End request whose title has an entry in the table makes
    exactly one remote call, DeleteMeeting with the stored meeting's
    identifier, and leaves the table as it was; it is answered 200 with the
    JSON of the empty object when the call resolves, 400 with the
    rejection's message when it is rejected.  An End request with no
    [title] at all acts on the entry stored under the title [undefined]. *)
Theorem end_known_title (request : Request) (s : Server)
    (stored : CreateMeetingResponse) :
  let key := to_string (query request !! "title") in
  let params := {| delete_MeetingId := MeetingId (Meeting stored) |} in
  let w := (handler request (fresh s)).2 in
  method request = "POST" → pathname request = "/end" →
  server_table s !! key = Some stored →
  (handler request (fresh s)).1 = inr tt
  ∧ calls w = [DeleteMeeting params]
  ∧ meetingTable w = server_table s
  ∧ cloud w = (chime_deleteMeeting params (server_cloud s)).2
  ∧ sent w = [ match (chime_deleteMeeting params (server_cloud s)).1 with
               | inr _ =>
                   {| statusCode := 200; contentType := "application/json";
                      body := JSON_stringify (JsObj []) 0 |}
               | inl err => bad_request err
               end ].
Proof.
  intros key params w Hm Hp Hstored. subst w params.
  unfold handler, try_catch. rewrite route_end by done.
  unfold end_meeting. fold key. clearbody key.
  js_unfold. simpl. unfold table_get. rewrite Hstored. simpl.
  destruct (chime_deleteMeeting _ _) as [[err|[]] c]; by repeat split.
Qed.

(** X9: with the debug flag set, POST /join goes to the debug helper and
    nowhere else: whatever the parameters, no remote call is made, no UUID
    is drawn and the table is as before; the answer is 201 with the
    helper's result as JSON, or 400 when the helper throws. *)
Theorem debug_mode (request : Request) (s : Server) :
  let w := (handler request (fresh s)).2 in
  DEBUG = true → method request = "POST" → pathname request = "/join" →
  (handler request (fresh s)).1 = inr tt
  ∧ calls w = []
  ∧ meetingTable w = server_table s
  ∧ cloud w = server_cloud s
  ∧ sent w = [ match debug (query request) with
               | inr info =>
                   {| statusCode := 201; contentType := "application/json";
                      body := JSON_stringify info 2 |}
               | inl err => bad_request err
               end ].
Proof.
  intros w Hdebug Hm Hp. subst w.
  unfold handler, try_catch, route. rewrite Hdebug, Hm, Hp. simpl.
  unfold debug_join. js_unfold. simpl.
  destruct (debug (query request)) as [err|info]; by repeat split.
Qed.

(** *** Join: the paths that end in 400 after the validation *)

(** X10: a Join request (POST /join, debug flag unset) whose [title] came
    more than once, so that it reads as an array, and whose joined title has
    no entry, fails before any remote call: an array has no [substring].
    The answer is 400 with that [TypeError], the table is as before, and one
    UUID has been drawn. *)
Theorem join_repeated_title (request : Request) (s : Server) (items : list string) :
  let w := (handler request (fresh s)).2 in
  DEBUG = false → method request = "POST" → pathname request = "/join" →
  query request !! "title" = Some (QArray items) →
  truthy (query request !! "name") = true →
  truthy (query request !! "region") = true →
  table_get (server_table s) (String.concat "," items) = Undefined →
  (handler request (fresh s)).1 = inr tt
  ∧ calls w = []
  ∧ meetingTable w = server_table s
  ∧ entropy w = (uuid (server_entropy s)).2
  ∧ sent w = [ bad_request
                 (TypeError (is_not_a_function "requestUrl.query.title.substring")) ].
Proof.
  intros w Hdebug Hm Hp Htitle Hname Hregion Hget. subst w.
  unfold handler, try_catch. rewrite route_join by done.
  unfold join. cbv zeta. rewrite Htitle, Hname, Hregion. simpl.
  js_unfold. simpl. rewrite Hget. simpl.
  destruct (uuid (server_entropy s)) as [u e]. by repeat split.
Qed.

(** X11: when the service rejects the CreateMeeting call of a Join for a
    new title, nothing is stored and CreateAttendee is not called: the one
    call made is that CreateMeeting, and the answer is 400 with the
    rejection's message. *)
Theorem join_create_rejected (request : Request) (s : Server) (title : string)
    (err : Exn) (c1 : Cloud) :
  let create :=
    {| ClientRequestToken := (uuid (server_entropy s)).1;
       MediaRegion := query request !! "region";
       ExternalMeetingId := substring_to 64 title |} in
  let w := (handler request (fresh s)).2 in
  DEBUG = false → method request = "POST" → pathname request = "/join" →
  query request !! "title" = Some (QString title) → title ≠ "" →
  truthy (query request !! "name") = true →
  truthy (query request !! "region") = true →
  table_get (server_table s) title = Undefined →
  chime_createMeeting create (server_cloud s) = (inl err, c1) →
  (handler request (fresh s)).1 = inr tt
  ∧ calls w = [CreateMeeting create]
  ∧ meetingTable w = server_table s
  ∧ cloud w = c1
  ∧ sent w = [bad_request err].
Proof.
  intros create w Hdebug Hm Hp Htitle Hne Hname Hregion Hget Hcreate.
  subst w create.
  unfold handler, try_catch. rewrite route_join by done.
  unfold join. cbv zeta. rewrite Htitle, Hname, Hregion. simpl.
  rewrite bool_decide_eq_false_2 by done. simpl.
  js_unfold. simpl. rewrite Hget. simpl.
  destruct (uuid (server_entropy s)) as [u e]. simpl in *.
  rewrite Hcreate. by repeat split.
Qed.

Lemma known_title_no_create (request : Request) (s : Server) :
  table_get (server_table s) (to_string (query request !! "title")) ≠ Undefined →
  ∀ create, CreateMeeting create ∉ calls (handler request (fresh s)).2.
Proof.
  intros Hknown create.
  js_paths; intros Hin;
    repeat (apply elem_of_cons in Hin as [Hin|Hin]; [try discriminate Hin|]);
    try (by apply elem_of_nil in Hin);
    by destruct Hknown.
Qed.

(** X12: when CreateMeeting resolves and CreateAttendee is then rejected,
    the Join is answered 400 but the created meeting stays stored under the
    title; the same request tried again makes no second CreateMeeting
    call. *)
Theorem join_attendee_rejected (request : Request) (s : Server) (title : string)
    (created : CreateMeetingResponse) (err : Exn) (c1 c2 : Cloud) :
  let token := uuid (server_entropy s) in
  let prefix := uuid token.2 in
  let create :=
    {| ClientRequestToken := token.1; MediaRegion := query request !! "region";
       ExternalMeetingId := substring_to 64 title |} in
  let add :=
    {| attendee_MeetingId := MeetingId (Meeting created);
       ExternalUserId :=
         substring_to 64
           (substring_to 8 prefix.1 +:+ "#" +:+ to_string (query request !! "name")) |} in
  let w := (handler request (fresh s)).2 in
  DEBUG = false → method request = "POST" → pathname request = "/join" →
  query request !! "title" = Some (QString title) → title ≠ "" →
  truthy (query request !! "name") = true →
  truthy (query request !! "region") = true →
  table_get (server_table s) title = Undefined →
  chime_createMeeting create (server_cloud s) = (inr created, c1) →
  chime_createAttendee add c1 = (inl err, c2) →
  calls w = [CreateMeeting create; CreateAttendee add]
  ∧ sent w = [bad_request err]
  ∧ meetingTable w = <[title := created]> (server_table s)
  ∧ ∀ again, CreateMeeting again ∉ calls (handler request (fresh (after s request))).2.
Proof.
  intros token prefix create add w Hdebug Hm Hp Htitle Hne Hname Hregion
    Hget Hcreate Hadd.
  assert (Htable : meetingTable w = <[title := created]> (server_table s)
                   ∧ calls w = [CreateMeeting create; CreateAttendee add]
                   ∧ sent w = [bad_request err]).
  { subst w add create prefix token.
    unfold handler, try_catch. rewrite route_join by done.
    unfold join. cbv zeta. rewrite Htitle, Hname, Hregion. simpl.
    rewrite bool_decide_eq_false_2 by done. simpl.
    js_unfold. simpl. rewrite Hget. simpl.
    destruct (uuid (server_entropy s)) as [u1 e1]. simpl in *.
    rewrite Hcreate. simpl. rewrite table_get_insert. simpl.
    destruct (uuid e1) as [u2 e2]. simpl in *.
    rewrite Hadd. by repeat split. }
  destruct Htable as (Htable & Hcalls & Hsent).
  repeat split; try done.
  apply known_title_no_create. unfold after. fold w. simpl.
  rewrite Htable, Htitle. simpl. by rewrite table_get_insert.
Qed.

(** *** Sequences of requests *)

Lemma after_entry_persists (s : Server) (request : Request) (key : string)
    (stored : CreateMeetingResponse) :
  server_table s !! key = Some stored →
  server_table (after s request) !! key = Some stored.
Proof.
  intros Hstored. unfold after. simpl.
  destruct (handler_table request (fresh s)) as [-> | (k & created & Hget & ->)];
    [done|].
  apply table_get_undefined in Hget as [Hk _]. simpl in Hk.
  rewrite lookup_insert_ne; [done|]. intros ->. congruence.
Qed.

Lemma run_entry_persists (requests : list Request) (s : Server) (key : string)
    (stored : CreateMeetingResponse) :
  server_table s !! key = Some stored →
  server_table (run s requests) !! key = Some stored.
Proof.
  revert s. induction requests as [|request requests IH]; intros s Hstored; [done|].
  simpl. apply IH. by apply after_entry_persists.
Qed.

(** X13: once a title has an entry, no sequence of requests removes or
    replaces it, End requests included, and no later request for that title
    calls CreateMeeting: until the process restarts, the title stays bound
    to the meeting first created for it. *)
Theorem stored_title_never_recreated (s : Server) (key : string)
    (stored : CreateMeetingResponse) (requests : list Request) :
  server_table s !! key = Some stored →
  server_table (run s requests) !! key = Some stored
  ∧ ∀ request, to_string (query request !! "title") = key →
      ∀ create,
        CreateMeeting create ∉ calls (handler request (fresh (run s requests))).2.
Proof.
  intros Hstored.
  pose proof (run_entry_persists requests s key stored Hstored) as Hlater.
  split; [exact Hlater|].
  intros request <-. apply known_title_no_create.
  unfold table_get. by rewrite Hlater.
Qed.

(** X14: no sequence of requests stores an entry under a name that the
    table inherits from [Object.prototype] ([__proto__], [constructor],
    [toString], ...): a table that shows the prototype's properties keeps
    showing them. *)
Theorem run_prototype_visible (s : Server) (requests : list Request) :
  prototype_visible (server_table s) →
  prototype_visible (server_table (run s requests)).
Proof.
  revert s. induction requests as [|request requests IH]; intros s Hvisible; [done|].
  simpl. apply IH. by apply after_prototype_visible.
Qed.

(** *** The metrics line *)

Lemma commas_app (a b : string) : commas (a +:+ b) = (commas a + commas b)%nat.
Proof. induction a as [|c a IH]; simpl; [done|]. rewrite IH. lia. Qed.

Lemma commas_pretty_N_go (x : N) (acc : string) :
  commas (pretty_N_go x acc) = commas acc.
Proof.
  revert acc. induction (N.lt_wf_0 x) as [x _ IH]; intros acc.
  assert (x = 0 ∨ 0 < x)%N as [->|Hpos] by lia.
  - by rewrite pretty_N_go_0.
  - rewrite pretty_N_go_step by done. rewrite IH by by apply N.div_lt.
    simpl. unfold pretty_N_char. by repeat case_match.
Qed.

Lemma commas_pretty_N (x : N) : commas (pretty x) = 0%nat.
Proof.
  unfold pretty, pretty_N. case_decide; [done|]. by rewrite commas_pretty_N_go.
Qed.

Lemma commas_pretty_Z (z : Z) : commas (pretty z) = 0%nat.
Proof.
  destruct z as [|p|p]; unfold pretty, pretty_Z; simpl; [done|..].
  - apply commas_pretty_N.
  - apply commas_pretty_N.
Qed.

(** X15: the metrics line has twelve commas of its own, hence thirteen
    fields, when the method, the path and the title contain no comma.  The
    path is written three times and the title once, unescaped (an absent
    title as [undefined]), so every comma in them adds as many fields. *)
Theorem metrics_message_commas (elapsed status : Z) (request : Request) :
  commas (metrics_message elapsed request status)
  = (12 + commas (method request) + 3 * commas (pathname request)
     + commas (to_string (query request !! "title")))%nat.
Proof.
  unfold metrics_message. cbv zeta.
  rewrite !commas_app, !commas_pretty_Z. simpl. lia.
Qed.

(** *** Failures *)

(** A remote call that the service rejects is the last call of the
    request, and the request is answered 400 with the rejection's message. *)
Lemma rejected_call_answered (request : Request) (s : Server)
    (pre post : list ApiCall) (call : ApiCall) (err : Exn) :
  calls (handler request (fresh s)).2 = pre ++ call :: post →
  rejection call (replay pre (server_cloud s)) = Some err →
  post = [] ∧ sent (handler request (fresh s)).2 = [bad_request err].
Proof.
  js_paths; intros Hcalls Hrejected;
    destruct pre as [|first [|second [|third pre]]]; simplify_eq/=;
    unfold replay, rejection in Hrejected; simpl in Hrejected;
    repeat match goal with
      | H : chime_createMeeting _ _ = _ |- _ =>
          rewrite H in Hrejected; simpl in Hrejected; clear H
      | H : chime_createAttendee _ _ = _ |- _ =>
          rewrite H in Hrejected; simpl in Hrejected; clear H
      | H : chime_deleteMeeting _ _ = _ |- _ =>
          rewrite H in Hrejected; simpl in Hrejected; clear H
      end;
    simplify_eq; done.
Qed.

Lemma end_lookup_fails (request : Request) (s : Server) :
  method request = "POST" → pathname request = "/end" →
  server_table s !! to_string (query request !! "title") = None →
  sent (handler request (fresh s)).2
  = [bad_request
       (TypeError
          (cannot_read_property
             (if bool_decide (to_string (query request !! "title") ∈ Object_prototype)
              then "MeetingId" else "Meeting")))].
Proof.
  intros Hm Hp Habsent.
  unfold handler, try_catch. rewrite route_end by done.
  js_unfold. simpl. unfold table_get. rewrite Habsent.
  by case_bool_decide.
Qed.

End Coverage.

Section Failures.

Context {P : Platform} {U : UrlModule}.

(** C4 (amended): what [url.parse] throws on the request URL is thrown
    before the [try] block: it leaves the listener and no response is
    written.  Once the URL is parsed, nothing leaves the listener and
    exactly one response is written; every failure inside the [try] block,
    be it the validation error of Join, a remote call that the service
    rejects or the [TypeError] of End's lookup of a missing meeting, is
    thrown to the [catch] block and answered 400 with the JSON body
    [{error: message}]. *)
Theorem try_failures_answered_400 (received : IncomingMessage) (s : Server) :
  match url_parse (message_url received) with
  | inl err => requestListener received (fresh s) = (inl (inl err), fresh s)
  | inr url =>
      let request := parsed received url in
      let title := query request !! "title" in
      let w := (handler request (fresh s)).2 in
      requestListener received (fresh s) = (inr tt, w)
      ∧ length (sent w) = 1%nat
      ∧ (∀ err w', route request (fresh s) = (inl err, w') → sent w = [bad_request err])
      ∧ (∀ err, bad_request err
                = {| statusCode := 400; contentType := "application/json";
                     body := JSON_stringify (JsObj [("error", JsStr (message err))]) 2 |})
      ∧ (DEBUG = false → method request = "POST" → pathname request = "/join" →
         truthy title && truthy (query request !! "name")
           && truthy (query request !! "region") = false →
         sent w = [bad_request (Error "Need parameters: title, name, region")])
      ∧ (∀ pre call post err,
           calls w = pre ++ call :: post →
           rejection call (replay pre (server_cloud s)) = Some err →
           post = [] ∧ sent w = [bad_request err])
      ∧ (method request = "POST" → pathname request = "/end" →
         server_table s !! to_string title = None →
         sent w = [bad_request
                     (TypeError
                        (cannot_read_property
                           (if bool_decide (to_string title ∈ Object_prototype)
                            then "MeetingId" else "Meeting")))])
  end.
Proof.
  unfold requestListener.
  destruct (url_parse (message_url received)) as [err|url]; [reflexivity|].
  lazy beta iota zeta. set (request := parsed received url).
  destruct (handler_answers_once request s) as (Hreturns & Hone & Hcaught).
  destruct (handler request (fresh s)) as [[err|[]] w] eqn:Hrun;
    simpl in *; [discriminate|].
  split; [reflexivity|]. split; [exact Hone|].
  split; [intros err w' Hthrown; by apply (Hcaught err w')|].
  split; [reflexivity|].
  split.
  { intros Hdebug Hm Hp Hfalsy.
    pose proof (join_refused request s Hdebug Hm Hp Hfalsy) as Hrefused.
    rewrite Hrun in Hrefused. by injection Hrefused as ->. }
  split.
  { intros pre call post err Hcalls Hrejected.
    pose proof (rejected_call_answered request s pre post call err) as Hlast.
    rewrite Hrun in Hlast. by apply Hlast. }
  intros Hm Hp Habsent.
  pose proof (end_lookup_fails request s Hm Hp Habsent) as Hlookup.
  by rewrite Hrun in Hlookup.
Qed.

End Failures.

(** ** The handler on concrete requests *)

Section Runs.

#[local] Existing Instance Demo.platform.

Import Demo.

Lemma join_new_title_witness :
  statuses boot (join_request "standup" "Ann" "us-east-1") = [201]
  ∧ length (calls (handler (join_request "standup" "Ann" "us-east-1") (fresh boot)).2)
    = 2%nat.
Proof.
  unfold statuses.
  erewrite (join_new_title (join_request "standup" "Ann" "us-east-1") boot
              "standup" (QString "Ann") (QString "us-east-1"));
    [split; reflexivity|try (vm_compute; reflexivity)..].
  discriminate.
Defined.

(** C1 as stated fails: with [name] present but empty the request is
    refused with 400 and no remote call; with a region the service rejects,
    CreateMeeting is called once, CreateAttendee never, nothing is stored
    and the answer is 400. *)
Lemma join_new_title_counterexample :
  (query (join_request "standup" "" "us-east-1") !! "name" = Some (QString "")
   ∧ server_table boot !! "standup" = None
   ∧ statuses boot (join_request "standup" "" "us-east-1") = [400]
   ∧ calls (handler (join_request "standup" "" "us-east-1") (fresh boot)).2 = [])
  ∧ (statuses boot (join_request "standup" "Ann" "mars") = [400]
     ∧ calls (handler (join_request "standup" "Ann" "mars") (fresh boot)).2
       = [CreateMeeting {| ClientRequestToken := "1b9d6bcd-bbfd-4b2d-9b5d-ab8dfbbd4bed";
                           MediaRegion := Some (QString "mars");
                           ExternalMeetingId := "standup" |}]
     ∧ meetingTable (handler (join_request "standup" "Ann" "mars") (fresh boot)).2
         !! "standup" = None).
Proof. vm_compute. repeat split. Qed.

Lemma join_known_title_witness :
  calls (handler (join_request "standup" "Bob" "us-east-1") (fresh joined)).2
  = [CreateAttendee {| attendee_MeetingId := "meeting-0";
                       ExternalUserId := "1b9d6bcd#Bob" |}]
  ∧ statuses joined (join_request "standup" "Bob" "us-east-1") = [201].
Proof.
  destruct (join_known_title (join_request "standup" "Bob" "us-east-1") joined
              {| Meeting := {| MeetingId := "meeting-0";
                               MeetingMembers :=
                                 [("ExternalMeetingId", JsStr "standup");
                                  ("MediaRegion", JsStr "us-east-1")] |} |})
    as (_ & Hcalls & _ & Hsent); try (vm_compute; reflexivity).
  unfold statuses. rewrite Hcalls, Hsent. split; reflexivity.
Defined.

(** C2 as stated fails: once the meeting has been ended its entry is still
    in the table, and a Join for the title calls CreateAttendee against the
    ended meeting, is rejected and answered 400, not 201; and with a stored
    title but no [name], no CreateAttendee call is made at all. *)
Lemma join_known_title_counterexample :
  (is_Some (server_table ended !! "standup")
   ∧ calls (handler (join_request "standup" "Bob" "us-east-1") (fresh ended)).2
     = [CreateAttendee {| attendee_MeetingId := "meeting-0";
                          ExternalUserId := "1b9d6bcd#Bob" |}]
   ∧ statuses ended (join_request "standup" "Bob" "us-east-1") = [400])
  ∧ (is_Some (server_table joined !! "standup")
     ∧ calls (handler (post "/join" [("title", QString "standup");
                                     ("region", QString "us-east-1")])
                (fresh joined)).2 = []
     ∧ statuses joined (post "/join" [("title", QString "standup");
                                      ("region", QString "us-east-1")]) = [400]).
Proof. vm_compute. repeat split; eexists; reflexivity. Qed.

Lemma end_unknown_title_witness :
  route (end_request "ghost") (fresh boot)
  = (inl (TypeError (cannot_read_property "Meeting")), fresh boot)
  ∧ statuses boot (end_request "ghost") = [400].
Proof.
  destruct (end_unknown_title (end_request "ghost") boot)
    as (Hroute & _ & Hsent & _); try (vm_compute; reflexivity).
  unfold statuses. rewrite Hsent. split; [exact Hroute|reflexivity].
Defined.

(** C3 as stated fails: an End for a title never joined does not leave
    the handler as an error; it is answered with a 400 response. *)
Lemma end_unknown_title_counterexample :
  server_table boot !! "ghost" = None
  ∧ (handler (end_request "ghost") (fresh boot)).1 = inr tt
  ∧ statuses boot (end_request "ghost") = [400].
Proof. vm_compute. repeat split. Qed.

Lemma join_missing_parameter_witness :
  statuses boot (post "/join" [("title", QString "standup"); ("name", QString "Ann")])
  = [400]
  ∧ calls (handler (post "/join" [("title", QString "standup"); ("name", QString "Ann")])
             (fresh boot)).2 = [].
Proof.
  destruct (join_missing_parameter
              (post "/join" [("title", QString "standup"); ("name", QString "Ann")]) boot)
    as (_ & Hsent & _ & Hcalls & _); try reflexivity.
  - right. right. vm_compute. reflexivity.
  - unfold statuses. rewrite Hsent, Hcalls. split; reflexivity.
Defined.

Lemma join_empty_parameter_witness :
  statuses boot (join_request "" "Ann" "us-east-1") = [400]
  ∧ calls (handler (join_request "" "Ann" "us-east-1") (fresh boot)).2 = [].
Proof.
  destruct (join_empty_parameter (join_request "" "Ann" "us-east-1") boot)
    as (_ & Hsent & _ & Hcalls & _); try reflexivity.
  - left. vm_compute. reflexivity.
  - unfold statuses. rewrite Hsent, Hcalls. split; reflexivity.
Defined.

Lemma not_found_witness :
  statuses boot {| method := "DELETE"; pathname := "/join"; query := ∅ |} = [404].
Proof.
  destruct (not_found {| method := "DELETE"; pathname := "/join"; query := ∅ |} boot)
    as (_ & Hsent & _); try (intros [Hm Hp]; discriminate).
  unfold statuses. rewrite Hsent. reflexivity.
Defined.

Lemma end_keeps_table_witness :
  meetingTable (handler (end_request "standup") (fresh joined)).2 = server_table joined
  ∧ statuses joined (end_request "standup") = [200].
Proof.
  split; [|vm_compute; reflexivity].
  apply (end_keeps_table (end_request "standup") joined); reflexivity.
Defined.

Lemma join_external_ids_witness :
  ∃ name e,
    query (join_request "standup" "Ann" "us-east-1") !! "name" = Some name
    ∧ "9c5b94b1#Ann"
      = substring_to 64 (substring_to 8 (uuid e).1 +:+ "#" +:+ to_string (Some name)).
Proof.
  destruct (join_external_ids (join_request "standup" "Ann" "us-east-1") boot)
    as [_ Hattendee]; try reflexivity.
  destruct (Hattendee {| attendee_MeetingId := "meeting-0";
                         ExternalUserId := "9c5b94b1#Ann" |})
    as (name & e & Hname & _ & Hid & _).
  - assert (calls (handler (join_request "standup" "Ann" "us-east-1") (fresh boot)).2
            = [CreateMeeting
                 {| ClientRequestToken := "1b9d6bcd-bbfd-4b2d-9b5d-ab8dfbbd4bed";
                    MediaRegion := Some (QString "us-east-1");
                    ExternalMeetingId := "standup" |};
               CreateAttendee {| attendee_MeetingId := "meeting-0";
                                 ExternalUserId := "9c5b94b1#Ann" |}]) as ->
      by (vm_compute; reflexivity).
    apply list_elem_of_further, list_elem_of_here.
  - exists name, e. split; [exact Hname|exact Hid].
Defined.

(** C7 as stated fails: the identifier passed for the name [Ann] is not an
    8-character prefix followed by [Ann]; a [#] stands between them. *)
Lemma join_external_ids_counterexample :
  calls (handler (join_request "standup" "Ann" "us-east-1") (fresh boot)).2
  = [CreateMeeting {| ClientRequestToken := "1b9d6bcd-bbfd-4b2d-9b5d-ab8dfbbd4bed";
                      MediaRegion := Some (QString "us-east-1");
                      ExternalMeetingId := "standup" |};
     CreateAttendee {| attendee_MeetingId := "meeting-0";
                       ExternalUserId := "9c5b94b1#Ann" |}]
  ∧ ∀ prefix, String.length prefix = 8%nat →
      "9c5b94b1#Ann" ≠ substring_to 64 (prefix +:+ "Ann").
Proof.
  split; [vm_compute; reflexivity|].
  intros prefix Hlen Heq.
  apply (f_equal String.length) in Heq.
  rewrite substring_to_length, append_length, Hlen in Heq. discriminate.
Qed.

Lemma join_inherited_title_witness :
  statuses boot (join_request "toString" "Ann" "us-east-1") = [400]
  ∧ calls (handler (join_request "toString" "Ann" "us-east-1") (fresh boot)).2 = [].
Proof.
  destruct (join_inherited_title (join_request "toString" "Ann" "us-east-1") boot)
    as (_ & _ & Hsent & _ & Hcalls & _); try reflexivity.
  - apply (bool_decide_unpack _). vm_compute. exact I.
  - unfold statuses. rewrite Hsent, Hcalls. split; reflexivity.
Defined.

End Runs.

(** ** The further properties on concrete requests *)

Section CoverageRuns.

#[local] Existing Instance Demo.platform.

Import Demo.

Lemma attendee_joins_stored_meeting_witness :
  ∃ stored,
    meetingTable (handler (join_request "standup" "Ann" "us-east-1") (fresh boot)).2
      !! "standup" = Some stored
    ∧ MeetingId (Meeting stored) = "meeting-0".
Proof.
  destruct (attendee_joins_stored_meeting (join_request "standup" "Ann" "us-east-1") boot
              {| attendee_MeetingId := "meeting-0"; ExternalUserId := "9c5b94b1#Ann" |})
    as (stored & Hstored & Hid).
  - assert (calls (handler (join_request "standup" "Ann" "us-east-1") (fresh boot)).2
            = [CreateMeeting
                 {| ClientRequestToken := "1b9d6bcd-bbfd-4b2d-9b5d-ab8dfbbd4bed";
                    MediaRegion := Some (QString "us-east-1");
                    ExternalMeetingId := "standup" |};
               CreateAttendee {| attendee_MeetingId := "meeting-0";
                                 ExternalUserId := "9c5b94b1#Ann" |}]) as ->
      by (vm_compute; reflexivity).
    apply list_elem_of_further, list_elem_of_here.
  - exists stored. split; [exact Hstored|symmetry; exact Hid].
Defined.

Lemma create_only_for_unknown_title_witness :
  table_get (server_table boot) "standup" = Undefined
  ∧ String.length "1b9d6bcd-bbfd-4b2d-9b5d-ab8dfbbd4bed" = 36%nat.
Proof.
  destruct (create_only_for_unknown_title (join_request "standup" "Ann" "us-east-1") boot
              {| ClientRequestToken := "1b9d6bcd-bbfd-4b2d-9b5d-ab8dfbbd4bed";
                 MediaRegion := Some (QString "us-east-1");
                 ExternalMeetingId := "standup" |})
    as (_ & _ & _ & Hget & _ & Hlength).
  - assert (calls (handler (join_request "standup" "Ann" "us-east-1") (fresh boot)).2
            = [CreateMeeting
                 {| ClientRequestToken := "1b9d6bcd-bbfd-4b2d-9b5d-ab8dfbbd4bed";
                    MediaRegion := Some (QString "us-east-1");
                    ExternalMeetingId := "standup" |};
               CreateAttendee {| attendee_MeetingId := "meeting-0";
                                 ExternalUserId := "9c5b94b1#Ann" |}]) as ->
      by (vm_compute; reflexivity).
    apply list_elem_of_here.
  - split; [exact Hget|exact Hlength].
Defined.

Lemma index_page_witness :
  statuses boot {| method := "GET"; pathname := "/"; query := ∅ |} = [200]
  ∧ calls (handler {| method := "GET"; pathname := "/"; query := ∅ |} (fresh boot)).2 = [].
Proof.
  destruct (index_page {| method := "GET"; pathname := "/"; query := ∅ |} boot)
    as (_ & Hsent & Hcalls & _); try reflexivity.
  unfold statuses. rewrite Hsent, Hcalls. split; reflexivity.
Defined.

Lemma end_known_title_witness :
  calls (handler (end_request "standup") (fresh joined)).2
  = [DeleteMeeting {| delete_MeetingId := "meeting-0" |}]
  ∧ statuses joined (end_request "standup") = [200].
Proof.
  destruct (end_known_title (end_request "standup") joined
              {| Meeting := {| MeetingId := "meeting-0";
                               MeetingMembers :=
                                 [("ExternalMeetingId", JsStr "standup");
                                  ("MediaRegion", JsStr "us-east-1")] |} |})
    as (_ & Hcalls & _ & _ & Hsent); try (vm_compute; reflexivity).
  unfold statuses. rewrite Hcalls, Hsent. split; reflexivity.
Defined.

Lemma debug_mode_witness :
  calls (handler (P := debugging) (join_request "standup" "Ann" "us-east-1")
           (fresh debugging_boot)).2 = []
  ∧ statuses (P := debugging) debugging_boot (join_request "standup" "Ann" "us-east-1")
    = [201].
Proof.
  destruct (debug_mode (P := debugging) (join_request "standup" "Ann" "us-east-1")
              debugging_boot)
    as (_ & Hcalls & _ & _ & Hsent); try reflexivity.
  unfold statuses. rewrite Hcalls, Hsent. split; reflexivity.
Defined.

Lemma join_repeated_title_witness :
  calls (handler repeated_title_request (fresh boot)).2 = []
  ∧ statuses boot repeated_title_request = [400].
Proof.
  destruct (join_repeated_title repeated_title_request boot ["stand"; "up"])
    as (_ & Hcalls & _ & _ & Hsent); try (vm_compute; reflexivity).
  unfold statuses. rewrite Hcalls, Hsent. split; reflexivity.
Defined.

Lemma join_create_rejected_witness :
  meetingTable (handler (join_request "standup" "Ann" "mars") (fresh boot)).2
  = server_table boot
  ∧ statuses boot (join_request "standup" "Ann" "mars") = [400].
Proof.
  destruct (join_create_rejected (join_request "standup" "Ann" "mars") boot "standup"
              (Error "Invalid media region") (server_cloud boot))
    as (_ & _ & Htable & _ & Hsent); try (vm_compute; reflexivity).
  - discriminate.
  - unfold statuses. rewrite Htable, Hsent. split; reflexivity.
Defined.

Lemma join_attendee_rejected_witness :
  statuses (P := throttled) throttled_boot (join_request "standup" "Ann" "us-east-1")
  = [400]
  ∧ is_Some (meetingTable
               (handler (P := throttled) (join_request "standup" "Ann" "us-east-1")
                  (fresh throttled_boot)).2 !! "standup").
Proof.
  destruct (join_attendee_rejected (P := throttled)
              (join_request "standup" "Ann" "us-east-1") throttled_boot "standup"
              {| Meeting := {| MeetingId := "meeting-0";
                               MeetingMembers :=
                                 [("ExternalMeetingId", JsStr "standup");
                                  ("MediaRegion", JsStr "us-east-1")] |} |}
              (Error "Rate exceeded")
              {| created := 1; live := ["meeting-0"] |}
              {| created := 1; live := ["meeting-0"] |})
    as (_ & Hsent & Htable & _); try (vm_compute; reflexivity).
  - discriminate.
  - unfold statuses. rewrite Hsent, Htable. split; [reflexivity|].
    eexists. apply lookup_insert_eq.
Defined.

Lemma stored_title_never_recreated_witness :
  is_Some (server_table
             (run joined [end_request "standup";
                          join_request "standup" "Bob" "us-east-1"]) !! "standup").
Proof.
  eexists.
  apply (stored_title_never_recreated joined "standup"
           {| Meeting := {| MeetingId := "meeting-0";
                            MeetingMembers :=
                              [("ExternalMeetingId", JsStr "standup");
                               ("MediaRegion", JsStr "us-east-1")] |} |}).
  vm_compute. reflexivity.
Defined.

Lemma run_prototype_visible_witness :
  prototype_visible
    (server_table (run boot [join_request "__proto__" "Ann" "us-east-1";
                             join_request "standup" "Ann" "us-east-1"])).
Proof.
  apply (run_prototype_visible boot). intros key _. apply lookup_empty.
Defined.

End CoverageRuns.

(** ** The listener on concrete requests *)

Section ListenerRuns.

#[local] Existing Instance Demo.platform.
#[local] Existing Instance Demo.node.

Import Demo.

Lemma try_failures_answered_400_witness :
  (requestListener (incoming "POST" "/join?title=standup&name=Ann&region=mars")
     (fresh boot)).1 = inr tt
  ∧ sent (requestListener (incoming "POST" "/join?title=standup&name=Ann&region=mars")
            (fresh boot)).2
    = [bad_request (Error "Invalid media region")].
Proof.
  pose proof (try_failures_answered_400
                (incoming "POST" "/join?title=standup&name=Ann&region=mars") boot)
    as Hlistener.
  set (url := url_parse _) in Hlistener. vm_compute in url. subst url.
  lazy beta iota zeta in Hlistener.
  destruct Hlistener as (Hreturns & _ & _ & _ & _ & Hrejected & _).
  rewrite Hreturns. split; [reflexivity|].
  apply (Hrejected []
           (CreateMeeting
              {| ClientRequestToken := "1b9d6bcd-bbfd-4b2d-9b5d-ab8dfbbd4bed";
                 MediaRegion := Some (QString "mars");
                 ExternalMeetingId := "standup" |})
           [] (Error "Invalid media region")); vm_compute; reflexivity.
Defined.

(** C4 as stated fails: the URL [http://%@host/] makes [url.parse] throw
    before the [try] block; the error leaves the listener and no response
    is written. *)
Lemma try_failures_answered_400_counterexample :
  (requestListener (incoming "GET" "http://%@host/") (fresh boot)).1
  = inl (inl (URIError "URI malformed"))
  ∧ sent (requestListener (incoming "GET" "http://%@host/") (fresh boot)).2 = [].
Proof. vm_compute. split; reflexivity. Qed.

End ListenerRuns.
